(** * EPA Victoria air-monitoring collection scripts: a shallow embedding

    The development follows [aussie_parameter_search.py] and
    [site_list_script.py].  Python values coming from the wire are JSON
    values; coroutines are computations over an explicit [World] holding the
    event-loop clock, the module-level rate limiter, the remote server and a
    log of the effects performed.  Exceptions are a result constructor, so a
    raised error and the effects that preceded it are both observable. *)

From Stdlib Require Import List String Ascii Bool ZArith QArith Qminmax Qround Qabs.
From Stdlib Require Import Lia Lqa.
From Stdlib Require Import Sorting.Sorted Sorting.Permutation.
From Stdlib Require Import Structures.OrderedTypeEx.
Import ListNotations.

#[local] Set Warnings "-register-all".
Local Open Scope string_scope.
Local Open Scope list_scope.
Local Open Scope Z_scope.

(** ** Python values *)

(** What [json.loads] can build: [None], booleans, numbers, strings, lists
    and dicts.  A dict keeps its insertion order, as Python's does. *)
Inductive json : Type :=
| JNull
| JBool (b : bool)
| JNum (q : Q)
| JStr (s : string)
| JArr (items : list json)
| JObj (fields : list (string * json)).

(** The exceptions the two scripts can meet. *)
Inductive exn : Type :=
| HTTPStatusError (code : Z)
| JSONDecodeError
| AttributeError
| TypeError
| ValueError
| KeyError (key : string)
| IndexError.

(** How a call ends: it returns, it raises, or it never resumes (a timer
    that never fires, a semaphore that is never released). *)
Inductive outcome (A : Type) : Type :=
| Ok (a : A)
| Raise (e : exn)
| Hang.
Arguments Ok {A} a.
Arguments Raise {A} e.
Arguments Hang {A}.

Definition returned {A} (o : outcome A) : bool :=
  match o with Ok _ => true | _ => false end.

(** Fallible pure code. *)
Definition obind {A B} (c : outcome A) (k : A -> outcome B) : outcome B :=
  match c with
  | Ok a => k a
  | Raise e => Raise e
  | Hang => Hang
  end.

Notation "'let?' x := c 'in' k" := (obind c (fun x => k))
  (at level 10, x name, c at level 100, k at level 200).

(** [bool(v)] *)
Definition truthy (v : json) : bool :=
  match v with
  | JNull => false
  | JBool b => b
  | JNum q => negb (Qeq_bool q 0)
  | JStr s => negb (String.eqb s "")
  | JArr l => match l with [] => false | _ => true end
  | JObj l => match l with [] => false | _ => true end
  end.

(** [a or b] *)
Definition py_or (a b : json) : json := if truthy a then a else b.

Fixpoint dict_get (d : list (string * json)) (k : string) : option json :=
  match d with
  | [] => None
  | (k', v) :: rest => if String.eqb k' k then Some v else dict_get rest k
  end.

(** [d[k] = v]: an existing key keeps its place, a new one goes last. *)
Fixpoint dict_set (d : list (string * json)) (k : string) (v : json)
  : list (string * json) :=
  match d with
  | [] => [(k, v)]
  | (k', v') :: rest =>
      if String.eqb k' k then (k', v) :: rest else (k', v') :: dict_set rest k v
  end.

(** [o.get(k, default)]; only a dict has the method. *)
Definition get_default (o : json) (k : string) (default : json) : outcome json :=
  match o with
  | JObj d => Ok (match dict_get d k with Some v => v | None => default end)
  | _ => Raise AttributeError
  end.

(** [o.get(k)] *)
Definition get (o : json) (k : string) : outcome json := get_default o k JNull.

(** [o[k] = v] *)
Definition setitem (o : json) (k : string) (v : json) : outcome json :=
  match o with
  | JObj d => Ok (JObj (dict_set d k v))
  | _ => Raise TypeError
  end.

Fixpoint chars (s : string) : list json :=
  match s with
  | EmptyString => []
  | String c rest => JStr (String c EmptyString) :: chars rest
  end.

(** [for x in v]: a list yields its items, a dict its keys, a string its
    characters; nothing else is iterable. *)
Definition py_iter (v : json) : outcome (list json) :=
  match v with
  | JArr l => Ok l
  | JObj d => Ok (map (fun kv => JStr (fst kv)) d)
  | JStr s => Ok (chars s)
  | _ => Raise TypeError
  end.

(** A Python [float]: what [float(s)] can return. *)
Inductive pyfloat : Type :=
| Fin (q : Q)
| PosInf
| NegInf
| NaN.

(** ** The world a coroutine runs in *)

Record Response : Type := {
  status_code : Z;
  headers : list (string * string);
  body : option json   (* what [resp.json()] parses, [None] when it cannot *)
}.

Record Request : Type := {
  url : string;
  req_headers : list (string * string);
  params : list (string * string)
}.

(** Where an [asyncio.sleep] was awaited. *)
Inductive sleeper : Type := InLimiter | InBackoff | InStagger.

Inductive event : Type :=
| EvAdmit (t : Q)                     (* a timestamp appended to the window *)
| EvGet (r : Request)                 (* [client.get] *)
| EvSleep (who : sleeper) (d : pyfloat) (* [asyncio.sleep(d)] *)
| EvTask (site_id : json).            (* [asyncio.create_task(worker(sid))] *)

(** [class AsyncRateLimiter]: its two data attributes (the lock is the
    atomicity of [acquire] below). *)
Record AsyncRateLimiter : Type := {
  max_per_sec : Z;
  _win : list Q
}.

(** [clock] is the last reading of the loop's monotonic clock; [ticks] is
    the time that will have passed at each later reading, beyond the sleeps
    in between (scheduling delay, network latency, late timers).  Readings
    and delays are exact rationals: the rounding of Python's floats is left
    out.  The server answers the [n]-th request of the run with
    [net n request]. *)
Record World : Type := {
  clock : Q;
  ticks : list Q;
  rate_limiter : AsyncRateLimiter;
  net : nat -> Request -> Response;
  sent : nat;
  log : list event
}.

Definition M (A : Type) : Type := World -> outcome A * World.

Definition ret {A} (a : A) : M A := fun w => (Ok a, w).

Definition raise {A} (e : exn) : M A := fun w => (Raise e, w).

Definition bind {A B} (c : M A) (k : A -> M B) : M B :=
  fun w =>
    match c w with
    | (Ok a, w') => k a w'
    | (Raise e, w') => (Raise e, w')
    | (Hang, w') => (Hang, w')
    end.

Definition lift {A} (o : outcome A) : M A := fun w => (o, w).

Declare Scope coro_scope.
Delimit Scope coro_scope with coro.
Notation "x <- c ;; k" := (bind c (fun x => k))
  (at level 100, c at next level, right associativity) : coro_scope.
Notation "c ;; k" := (bind c (fun _ => k))
  (at level 100, right associativity) : coro_scope.
Local Open Scope coro_scope.

Definition with_log (w : World) (e : event) : World :=
  {| clock := clock w; ticks := ticks w; rate_limiter := rate_limiter w;
     net := net w; sent := sent w; log := log w ++ [e] |}.

Definition advance (w : World) (d : Q) : World :=
  {| clock := (clock w + d)%Q; ticks := ticks w; rate_limiter := rate_limiter w;
     net := net w; sent := sent w; log := log w |}.

Definition emit (e : event) : M unit := fun w => (Ok tt, with_log w e).

(** [asyncio.get_event_loop().time()] *)
Definition loop_time : M Q :=
  fun w =>
    let now := match ticks w with [] => clock w | d :: _ => (clock w + d)%Q end in
    (Ok now, {| clock := now; ticks := tl (ticks w);
                rate_limiter := rate_limiter w; net := net w;
                sent := sent w; log := log w |}).

(** [await client.get(url, headers=..., params=...)].  The server always
    answers: timeouts and refused connections are left out. *)
Definition client_get (r : Request) : M Response :=
  fun w =>
    (Ok (net w (sent w) r),
     {| clock := clock w; ticks := ticks w;
        rate_limiter := rate_limiter w; net := net w;
        sent := S (sent w); log := log w ++ [EvGet r] |}).

Definition get_win : M (list Q) := fun w => (Ok (_win (rate_limiter w)), w).

Definition get_max_per_sec : M Z := fun w => (Ok (max_per_sec (rate_limiter w)), w).

Definition set_win (l : list Q) : M unit :=
  fun w =>
    (Ok tt, {| clock := clock w; ticks := ticks w;
               rate_limiter := {| max_per_sec := max_per_sec (rate_limiter w);
                                  _win := l |};
               net := net w; sent := sent w; log := log w |}).

(** What the interpreter, the environment and pandas supply. *)
Class PyRuntime : Type := {
  API_KEY : string;                  (* [os.environ["API_KEY"]] *)
  py_float : string -> option pyfloat;
                                     (* [float(s)], [None] for [ValueError] *)
  py_str : json -> string;           (* how an f-string formats a value *)
  nan_sleep_raises : bool;           (* [asyncio.sleep(nan)] raises
                                        [ValueError] from Python 3.13 on and
                                        returns at once before *)
  to_datetime : list json -> nat -> option Z;
                                     (* the UTC timestamp, in epoch
                                        nanoseconds, that [pd.to_datetime(col,
                                        utc=True)] reads in cell [i] of [col];
                                        [None] where the cell is missing or
                                        cannot be read *)
  float64_column : string -> list json -> bool;
                                     (* whether [pd.DataFrame] stores the
                                        column of that name and those values
                                        as [float64] *)
  to_float64 : Q -> Q                (* the double nearest to a number *)
}.

(** [await asyncio.sleep(d)]: the task resumes no earlier than [d] from
    now; a delay that is not positive only yields, and a timer set at
    infinity never fires. *)
Definition sleep `{PyRuntime} (who : sleeper) (d : pyfloat) : M unit :=
  fun w =>
    let w' := with_log w (EvSleep who d) in
    match d with
    | Fin q => (Ok tt, if Qle_bool q 0 then w' else advance w' q)
    | NegInf => (Ok tt, w')
    | PosInf => (Hang, w')
    | NaN => (if nan_sleep_raises then Raise ValueError else Ok tt, w')
    end.

(** ** The rate limiter *)

(** [while self._win and (now - self._win[0]) > 1.0: self._win.popleft()] *)
Fixpoint prune (now : Q) (win : list Q) : list Q :=
  match win with
  | [] => []
  | oldest :: rest =>
      if Qle_bool (now - oldest) 1 then win else prune now rest
  end.

(** [AsyncRateLimiter.acquire] on the module's [rate_limiter].  The body
    runs under [self._lock], so no other [acquire] touches the window
    between its first and its last line. *)
Definition acquire `{PyRuntime} : M unit :=
  now <- loop_time ;;
  win <- get_win ;;
  set_win (prune now win) ;;
  win <- get_win ;;
  cap <- get_max_per_sec ;;
  (if Z.of_nat (List.length win) >=? cap then
     match win with
     | [] => raise IndexError
     | oldest :: _ =>
         let sleep_for := (1 - (now - oldest))%Q in
         (if Qle_bool sleep_for 0 then ret tt
          else sleep InLimiter (Fin sleep_for)) ;;
         now <- loop_time ;;
         win <- get_win ;;
         set_win (prune now win)
     end
   else ret tt) ;;
  t <- loop_time ;;
  win <- get_win ;;
  set_win (win ++ [t]) ;;
  emit (EvAdmit t).

(** [AsyncRateLimiter(max_per_sec)] *)
Definition AsyncRateLimiter_init (k : Z) : AsyncRateLimiter :=
  {| max_per_sec := k; _win := [] |}.

(** ** Fetching *)

Definition BASE : string :=
  "https://gateway.api.epa.vic.gov.au/environmentMonitoring/v1".

Definition lower_ascii (c : ascii) : ascii :=
  let n := nat_of_ascii c in
  if ((65 <=? n) && (n <=? 90))%nat then ascii_of_nat (n + 32) else c.

Fixpoint lower (s : string) : string :=
  match s with
  | EmptyString => EmptyString
  | String c rest => String (lower_ascii c) (lower rest)
  end.

Fixpoint join (sep : string) (l : list string) : string :=
  match l with
  | [] => ""
  | [x] => x
  | x :: rest => (x ++ sep ++ join sep rest)%string
  end.

(** [resp.headers.get(name)]: header names compare without case, and a
    header sent more than once reads as its values joined by a comma. *)
Definition headers_get (h : list (string * string)) (name : string)
  : option string :=
  match filter (fun kv => String.eqb (lower (fst kv)) (lower name)) h with
  | [] => None
  | found => Some (join ", " (map snd found))
  end.

(** [resp.raise_for_status()] *)
Definition raise_for_status (r : Response) : outcome unit :=
  if (200 <=? status_code r) && (status_code r <=? 299) then Ok tt
  else Raise (HTTPStatusError (status_code r)).

(** [resp.json()] *)
Definition resp_json (r : Response) : outcome json :=
  match body r with
  | Some v => Ok v
  | None => Raise JSONDecodeError
  end.

(** [range(n)] *)
Definition range (n : nat) : list Z := map Z.of_nat (seq 0 n).

(** An f-string's [{site_id}]. *)
Definition fmt `{PyRuntime} (v : json) : string :=
  match v with
  | JStr s => s
  | _ => py_str v
  end.

Definition not_found_payload (site_id : json) : json :=
  JObj [("siteID", site_id); ("parameters", JArr [])].

Definition exhausted_payload (site_id : json) : json :=
  JObj [("siteID", site_id); ("parameters", JArr []);
        ("_error", JStr "exhausted retries")].

Definition parameters_request `{PyRuntime} (site_id : json) : Request :=
  {| url := (BASE ++ "/sites/" ++ fmt site_id ++ "/parameters")%string;
     req_headers := [("X-API-Key", API_KEY)];
     params := [("environmentalSegment", "air")] |}.

(** The [try: delay = float(ra) / except (TypeError, ValueError)] of the 429
    branch: [float(None)] is the [TypeError]. *)
Definition backoff_delay `{PyRuntime} (attempt : Z) (resp : Response) : pyfloat :=
  let fallback := Fin (inject_Z (Z.min (2 ^ attempt) 8)) in
  match headers_get (headers resp) "Retry-After" with
  | None => fallback
  | Some ra =>
      match py_float ra with
      | Some delay => delay
      | None => fallback
      end
  end.

(** The body of [for attempt in range(4)] and what follows the loop. *)
Fixpoint fetch_site_parameters_loop `{PyRuntime} (site_id : json)
  (attempts : list Z) : M json :=
  match attempts with
  | [] => ret (exhausted_payload site_id)
  | attempt :: rest =>
      acquire ;;
      resp <- client_get (parameters_request site_id) ;;
      if status_code resp =? 429 then
        sleep InBackoff (backoff_delay attempt resp) ;;
        fetch_site_parameters_loop site_id rest
      else if status_code resp =? 404 then
        ret (not_found_payload site_id)
      else
        lift (raise_for_status resp) ;;
        data <- lift (resp_json resp) ;;
        lift (setitem data "siteID" site_id)
  end.

Definition fetch_site_parameters `{PyRuntime} (site_id : json) : M json :=
  fetch_site_parameters_loop site_id (range 4).

(** [asyncio.gather] over the tasks: the results in task order when every
    task returns, the exception of a task that raised when one did, and no
    return while a task is stuck and none has raised.  When several tasks
    raise, the loop hands over the exception that occurs first; the one of
    the first such task in task order stands for it here. *)
Fixpoint first_raise {A} (os : list (outcome A)) : option exn :=
  match os with
  | [] => None
  | Raise e :: _ => Some e
  | _ :: rest => first_raise rest
  end.

Fixpoint all_ok {A} (os : list (outcome A)) : option (list A) :=
  match os with
  | [] => Some []
  | Ok a :: rest => option_map (cons a) (all_ok rest)
  | _ :: _ => None
  end.

Definition gather {A} (os : list (outcome A)) : outcome (list A) :=
  match first_raise os with
  | Some e => Raise e
  | None => match all_ok os with Some l => Ok l | None => Hang end
  end.

(** The [for i, sid in enumerate(site_ids)] loop.  The event loop
    interleaves the workers: one that awaits a response or sleeps a backoff
    gives way to its creator, which wakes from the 10 ms stagger, and to
    the workers already started.  The model runs a single schedule, the one
    in which each worker is done (or stuck) by the time its creator wakes,
    so that a worker gets the answers to consecutive requests.  A worker's
    outcome depends on the other workers only through the order in which
    the server sees the requests, and [net] ranges over every server; the
    properties stated of the pool are those that do not depend on that
    order.  [free] is the semaphore's counter: a finished or failed worker
    has released its slot, a stuck one keeps it, and with no slot left a
    worker waits at [async with sem] for good. *)
Fixpoint spawn_workers `{PyRuntime} (free : Z) (site_ids : list json) (w : World)
  : list (outcome json) * World :=
  match site_ids with
  | [] => ([], w)
  | sid :: rest =>
      let w1 := with_log w (EvTask sid) in
      let '(o, w2) :=
        if free <=? 0 then (Hang, w1) else fetch_site_parameters sid w1 in
      let free' :=
        match o with
        | Hang => if free <=? 0 then free else free - 1
        | _ => free
        end in
      let '(_, w3) := sleep InStagger (Fin (1 # 100)) w2 in
      let '(os, w4) := spawn_workers free' rest w3 in
      (o :: os, w4)
  end.

(** [asyncio.Semaphore(value)] refuses a negative value. *)
Definition fetch_all_parameters `{PyRuntime} (site_ids : list json)
  (concurrency : Z) : M (list json) :=
  fun w =>
    if concurrency <? 0 then (Raise ValueError, w)
    else
      let '(os, w') := spawn_workers concurrency site_ids w in
      (gather os, w').

(** ** Frames *)

(** [pd.DataFrame(rows)] infers a dtype for each column from the Python
    types in it, which the values here do not record (an [int] and a
    [float] of the same value are one [JNum]), so the runtime says which
    columns become [float64].  Only a column of numbers and missing values
    can: strings, booleans and mixed columns are kept as the objects they
    were given.  In a [float64] column a number is rounded to the nearest
    double and [None] becomes [NaN]; [JNull] stands for the missing value of
    either kind. *)
Definition numeric (v : json) : bool :=
  match v with
  | JNull | JNum _ => true
  | _ => false
  end.

Definition frame_cell `{PyRuntime} (name : string) (col : list json) (v : json)
  : json :=
  if forallb numeric col && float64_column name col then
    match v with
    | JNum q => JNum (to_float64 q)
    | _ => v
    end
  else v.

(** ** The site listing *)

Definition sites_request `{PyRuntime} : Request :=
  {| url := (BASE ++ "/sites")%string;
     req_headers := [("X-API-Key", API_KEY)];
     params := [("environmentalSegment", "air")] |}.

Definition fetch_air_sites `{PyRuntime} : M json :=
  acquire ;;
  r <- client_get sites_request ;;
  lift (raise_for_status r) ;;
  data <- lift (resp_json r) ;;
  lift (get_default data "records" (JArr [])).

(** One row of [sites_df]. *)
Record SiteRow : Type := {
  site_siteID : json;
  site_siteName : json;
  site_siteType : json;
  site_lon : json;
  site_lat : json
}.

(** [for x in l: ...] collecting what each turn appends. *)
Fixpoint for_each {A B} (f : A -> outcome (list B)) (l : list A)
  : outcome (list B) :=
  match l with
  | [] => Ok []
  | x :: rest =>
      let? ys := f x in
      let? zs := for_each f rest in
      Ok (ys ++ zs)
  end.

Definition site_row (rec : json) : outcome (list SiteRow) :=
  let? geometry := get_default rec "geometry" (JObj []) in
  let? c := get geometry "coordinates" in
  let coords := py_or c (JArr [JNull; JNull]) in
  let? padded :=
    match coords with
    | JArr l => Ok (firstn 2 (l ++ [JNull; JNull]))
    | _ => Raise TypeError
    end in
  match padded with
  | [lon; lat] =>
      let? siteID := get rec "siteID" in
      let? siteName := get rec "siteName" in
      let? siteType := get rec "siteType" in
      Ok [ {| site_siteID := siteID; site_siteName := siteName;
              site_siteType := siteType; site_lon := lon; site_lat := lat |} ]
  | _ => Raise ValueError
  end.

(** [pd.DataFrame(rows)] on the rows of [sites_to_df]. *)
Definition sites_frame `{PyRuntime} (rows : list SiteRow) : list SiteRow :=
  map (fun r =>
         {| site_siteID := frame_cell "siteID" (map site_siteID rows) (site_siteID r);
            site_siteName :=
              frame_cell "siteName" (map site_siteName rows) (site_siteName r);
            site_siteType :=
              frame_cell "siteType" (map site_siteType rows) (site_siteType r);
            site_lon := frame_cell "lon" (map site_lon rows) (site_lon r);
            site_lat := frame_cell "lat" (map site_lat rows) (site_lat r) |})
      rows.

Definition sites_to_df `{PyRuntime} (records : json) : outcome (list SiteRow) :=
  let? recs := py_iter records in
  let? rows := for_each site_row recs in
  Ok (sites_frame rows).

(** [==] on the scalars a column can hash: [True == 1] and [False == 0]. *)
Definition as_number (v : json) : option Q :=
  match v with
  | JNum q => Some q
  | JBool b => Some (if b then 1%Q else 0%Q)
  | _ => None
  end.

Definition py_eq (a b : json) : bool :=
  match a, b with
  | JStr x, JStr y => String.eqb x y
  | _, _ =>
      match as_number a, as_number b with
      | Some x, Some y => Qeq_bool x y
      | _, _ => false
      end
  end.

Definition hashable (v : json) : bool :=
  match v with
  | JArr _ | JObj _ => false
  | _ => true
  end.

Definition dropna (col : list json) : list json :=
  filter (fun v => match v with JNull => false | _ => true end) col.

(** [Series.unique()]: first occurrences, in order. *)
Fixpoint first_occurrences (col : list json) : list json :=
  match col with
  | [] => []
  | x :: rest => x :: filter (fun y => negb (py_eq x y)) (first_occurrences rest)
  end.

Definition unique (col : list json) : outcome (list json) :=
  if forallb hashable col then Ok (first_occurrences col) else Raise TypeError.

(** [sites_df["siteID"].dropna().unique().tolist()]; a frame built from no
    rows has no column to select. *)
Definition site_id_list (sites_df : list SiteRow) : outcome (list json) :=
  match sites_df with
  | [] => Raise (KeyError "siteID")
  | _ => unique (dropna (map site_siteID sites_df))
  end.

(** ** Flattening *)

(** A row of the parameter table; [T] is what the two time columns hold:
    the raw value before [pd.to_datetime], a timestamp or [NaT] after. *)
Record Row (T : Type) : Type := {
  col_siteID : json;
  col_parameter : json;
  col_unit : json;
  col_series : json;
  col_since : T;
  col_until : T;
  col_averageValue : json;
  col_healthAdvice : json;
  col_healthAdviceColor : json;
  col_healthCode : json
}.
Arguments col_siteID {T} _.
Arguments col_parameter {T} _.
Arguments col_unit {T} _.
Arguments col_series {T} _.
Arguments col_since {T} _.
Arguments col_until {T} _.
Arguments col_averageValue {T} _.
Arguments col_healthAdvice {T} _.
Arguments col_healthAdviceColor {T} _.
Arguments col_healthCode {T} _.

Definition reading_row (sid pname unit ts_name r : json)
  : outcome (list (Row json)) :=
  let? since := get r "since" in
  let? until := get r "until" in
  let? averageValue := get r "averageValue" in
  let? healthAdvice := get r "healthAdvice" in
  let? healthAdviceColor := get r "healthAdviceColor" in
  let? healthCode := get r "healthCode" in
  Ok [ {| col_siteID := sid; col_parameter := pname; col_unit := unit;
          col_series := ts_name; col_since := since; col_until := until;
          col_averageValue := averageValue; col_healthAdvice := healthAdvice;
          col_healthAdviceColor := healthAdviceColor;
          col_healthCode := healthCode |} ].

Definition series_rows (sid pname unit ts : json) : outcome (list (Row json)) :=
  let? ts_name := get ts "timeSeriesName" in
  let? readings := get ts "readings" in
  let? rs := py_iter (py_or readings (JArr [])) in
  for_each (reading_row sid pname unit ts_name) rs.

Definition parameter_rows (sid p : json) : outcome (list (Row json)) :=
  let? pname := get p "name" in
  let? unit := get p "unit" in
  let? series := get p "timeSeriesReadings" in
  let? tss := py_iter (py_or series (JArr [])) in
  for_each (series_rows sid pname unit) tss.

Definition payload_rows (item : json) : outcome (list (Row json)) :=
  let? sid := get item "siteID" in
  let? parameters := get item "parameters" in
  let? ps := py_iter (py_or parameters (JArr [])) in
  for_each (parameter_rows sid) ps.

(** The loop that fills [rows]. *)
Definition collect_rows (payloads : list json) : outcome (list (Row json)) :=
  for_each payload_rows payloads.

(** *** The frame: [pd.DataFrame], [pd.to_datetime] and [sort_values] *)

(** [pd.DataFrame(rows)] on the rows of [parameters_to_df]; no row gives
    the empty frame. *)
Definition DataFrame `{PyRuntime} (rows : list (Row json)) : list (Row json) :=
  map (fun r =>
         {| col_siteID := frame_cell "siteID" (map col_siteID rows) (col_siteID r);
            col_parameter :=
              frame_cell "parameter" (map col_parameter rows) (col_parameter r);
            col_unit := frame_cell "unit" (map col_unit rows) (col_unit r);
            col_series := frame_cell "series" (map col_series rows) (col_series r);
            col_since := frame_cell "since" (map col_since rows) (col_since r);
            col_until := frame_cell "until" (map col_until rows) (col_until r);
            col_averageValue :=
              frame_cell "averageValue" (map col_averageValue rows)
                         (col_averageValue r);
            col_healthAdvice :=
              frame_cell "healthAdvice" (map col_healthAdvice rows)
                         (col_healthAdvice r);
            col_healthAdviceColor :=
              frame_cell "healthAdviceColor" (map col_healthAdviceColor rows)
                         (col_healthAdviceColor r);
            col_healthCode :=
              frame_cell "healthCode" (map col_healthCode rows)
                         (col_healthCode r) |})
      rows.

(** The [errors] argument of [pd.to_datetime]. *)
Inductive errors_mode : Type := errors_raise | errors_coerce.

Definition is_missing (v : json) : bool :=
  match v with JNull => true | _ => false end.

Definition is_some {A} (o : option A) : bool :=
  match o with Some _ => true | None => false end.

(** [pd.to_datetime(col, utc=True, errors=...)]: a missing cell is [NaT]
    in either mode; a cell that cannot be read stops the call when errors
    are raised, and is [NaT] when they are coerced. *)
Definition pd_to_datetime `{PyRuntime} (errors : errors_mode) (col : list json)
  : outcome (list (option Z)) :=
  let converted := map (to_datetime col) (seq 0 (List.length col)) in
  match errors with
  | errors_coerce => Ok converted
  | errors_raise =>
      if forallb (fun c => is_missing (fst c) || is_some (snd c))
                 (combine col converted)
      then Ok converted
      else Raise ValueError
  end.

Definition retime {S T} (r : Row S) (since until : T) : Row T :=
  {| col_siteID := col_siteID r; col_parameter := col_parameter r;
     col_unit := col_unit r; col_series := col_series r;
     col_since := since; col_until := until;
     col_averageValue := col_averageValue r;
     col_healthAdvice := col_healthAdvice r;
     col_healthAdviceColor := col_healthAdviceColor r;
     col_healthCode := col_healthCode r |}.

(** [df["since"] = ...; df["until"] = ...]: row [i] gets entry [i] of each
    converted column. *)
Fixpoint stamp (since until : list (option Z)) (i : nat) (rows : list (Row json))
  : list (Row (option Z)) :=
  match rows with
  | [] => []
  | r :: rest =>
      retime r (nth i since None) (nth i until None)
        :: stamp since until (S i) rest
  end.

Definition is_number (v : json) : bool :=
  match as_number v with Some _ => true | None => false end.

(** A key column is factorized before it is ordered, which takes hashable
    values; pandas raises [TypeError] on a list or a dict. *)
Definition sortable (col : list json) : bool := forallb hashable col.

(** How a value of a key column takes part in the order: numbers first, in
    their order ([True] is 1), then strings in theirs, missing values last
    ([na_position="last"]).  Nothing meets an unhashable value: [sortable]
    has refused such a column. *)
Inductive key : Type :=
| KNumber (q : Q)
| KText (s : string)
| KOther
| KMissing.

Definition key_of (v : json) : key :=
  match v with
  | JNull => KMissing
  | JBool b => KNumber (if b then 1%Q else 0%Q)
  | JNum q => KNumber q
  | JStr s => KText s
  | JArr _ | JObj _ => KOther
  end.

Definition key_rank (k : key) : Z :=
  match k with
  | KNumber _ => 0
  | KText _ => 1
  | KOther => 2
  | KMissing => 3
  end.

Definition key_order (a b : key) : comparison :=
  match a, b with
  | KNumber x, KNumber y => (x ?= y)%Q
  | KText x, KText y => String.compare x y
  | _, _ => key_rank a ?= key_rank b
  end.

Definition key_compare (a b : json) : comparison :=
  key_order (key_of a) (key_of b).

Definition time_compare (a b : option Z) : comparison :=
  match a, b with
  | Some x, Some y => x ?= y
  | Some _, None => Lt
  | None, Some _ => Gt
  | None, None => Eq
  end.

Definition lex (c1 c2 : comparison) : comparison :=
  match c1 with
  | Eq => c2
  | _ => c1
  end.

(** The order of [["siteID", "parameter", "series", "since"]]. *)
Definition row_compare (a b : Row (option Z)) : comparison :=
  lex (key_compare (col_siteID a) (col_siteID b))
   (lex (key_compare (col_parameter a) (col_parameter b))
     (lex (key_compare (col_series a) (col_series b))
       (time_compare (col_since a) (col_since b)))).

Definition row_leb (a b : Row (option Z)) : bool :=
  match row_compare a b with
  | Gt => false
  | _ => true
  end.


(** A stable sort, as the lexsort behind a multi-column [sort_values] is. *)
Fixpoint insert_row (r : Row (option Z)) (sorted : list (Row (option Z)))
  : list (Row (option Z)) :=
  match sorted with
  | [] => [r]
  | x :: rest => if row_leb r x then r :: sorted else x :: insert_row r rest
  end.

Fixpoint sort_rows (df : list (Row (option Z))) : list (Row (option Z)) :=
  match df with
  | [] => []
  | r :: rest => insert_row r (sort_rows rest)
  end.

Definition sort_values (df : list (Row (option Z)))
  : outcome (list (Row (option Z))) :=
  if sortable (map col_siteID df) && sortable (map col_parameter df)
     && sortable (map col_series df)
  then Ok (sort_rows df)
  else Raise TypeError.

Definition parameters_to_df `{PyRuntime} (payloads : list json)
  : outcome (list (Row (option Z))) :=
  let? rows := collect_rows payloads in
  let df := DataFrame rows in
  match df with
  | [] => Ok []
  | _ =>
      let? since := pd_to_datetime errors_coerce (map col_since df) in
      let? until := pd_to_datetime errors_coerce (map col_until df) in
      sort_values (stamp since until 0 df)
  end.

(** ** The run *)

(** The summary line formats [b['siteID']] and [b.get("_error")[:160]]. *)
Definition preview (b : json) : outcome unit :=
  match b with
  | JObj d =>
      match dict_get d "siteID" with
      | None => Raise (KeyError "siteID")
      | Some _ =>
          let? e := get b "_error" in
          match e with
          | JStr _ | JArr _ => Ok tt
          | _ => Raise TypeError
          end
      end
  | _ => Raise TypeError
  end.

Fixpoint select_bad (payloads : list json) : outcome (list json) :=
  match payloads with
  | [] => Ok []
  | p :: rest =>
      let? e := get p "_error" in
      let? more := select_bad rest in
      Ok (if truthy e then p :: more else more)
  end.

Fixpoint report (bad : list json) : outcome unit :=
  match bad with
  | [] => Ok tt
  | b :: rest => let? _ := preview b in report rest
  end.

(** The locals of [main] when it ends; [flattened] is the argument it gave
    to [parameters_to_df]. *)
Record Run : Type := {
  site_ids : list json;
  payloads : list json;
  bad : list json;
  flattened : list json;
  params_df : list (Row (option Z))
}.

Definition main `{PyRuntime} : M Run :=
  records <- fetch_air_sites ;;
  sites_df <- lift (sites_to_df records) ;;
  site_ids <- lift (site_id_list sites_df) ;;
  payloads <- fetch_all_parameters site_ids 8 ;;
  bad <- lift (select_bad payloads) ;;
  lift (report (firstn 10 bad)) ;;
  params_df <- lift (parameters_to_df payloads) ;;
  ret {| site_ids := site_ids; payloads := payloads; bad := bad;
         flattened := payloads; params_df := params_df |}.

(** ** [site_list_script.py] *)

Module SiteListScript.

Definition BASE : string :=
  "https://gateway.api.epa.vic.gov.au/environmentMonitoring/v1".

Definition fetch_sites `{PyRuntime} (environmental_segment : string) : M json :=
  let url := (BASE ++ "/sites")%string in
  let params := [("environmentalSegment", environmental_segment)] in
  let headers_primary := [("X-API-Key", API_KEY)] in
  let headers_alt := [("Ocp-Apim-Subscription-Key", API_KEY)] in
  r <- client_get {| url := url; req_headers := headers_primary;
                     params := params |} ;;
  if status_code r =? 200 then lift (resp_json r) else ret JNull.

(** What [main] prints, one constructor per [print] call. *)
Inductive line : Type :=
| TotalLine (total : json)
| SiteLine (name s_type sid coords : json)
| HTTPErrorLine (code : Z)
| ErrorLine (e : exn).

(** The four [get]s of one turn of [for rec in data.get("records", [])]. *)
Definition site_line (rec : json) : outcome line :=
  let? name := get rec "siteName" in
  let? sid := get rec "siteID" in
  let? geometry := get_default rec "geometry" (JObj []) in
  let? coords := get geometry "coordinates" in
  let? s_type := get rec "siteType" in
  Ok (SiteLine name s_type sid coords).

(** The lines printed for the records, and the exception that stopped the
    loop, if one did. *)
Fixpoint print_records (recs : list json) : list line * option exn :=
  match recs with
  | [] => ([], None)
  | rec :: rest =>
      match site_line rec with
      | Ok l => let '(ls, stop) := print_records rest in (l :: ls, stop)
      | Raise e => ([], Some e)
      | Hang => ([], None)
      end
  end.

(** The body of the [try] once [fetch_sites] has returned [data]. *)
Definition describe (data : json) : list line * option exn :=
  match get data "totalRecords" with
  | Ok total =>
      match (let? records := get_default data "records" (JArr []) in
             py_iter records) with
      | Ok recs =>
          let '(ls, stop) := print_records recs in (TotalLine total :: ls, stop)
      | Raise e => ([TotalLine total], Some e)
      | Hang => ([TotalLine total], None)
      end
  | Raise e => ([], Some e)
  | Hang => ([], None)
  end.

(** [except httpx.HTTPStatusError] first, [except Exception] for the rest. *)
Definition handler (stop : option exn) : list line :=
  match stop with
  | None => []
  | Some (HTTPStatusError code) => [HTTPErrorLine code]
  | Some e => [ErrorLine e]
  end.

Definition main `{PyRuntime} : M (list line) :=
  fun w =>
    match fetch_sites "air" w with
    | (Ok data, w') =>
        let '(ls, stop) := describe data in (Ok (ls ++ handler stop), w')
    | (Raise e, w') => (Ok (handler (Some e)), w')
    | (Hang, w') => (Hang, w')
    end.

End SiteListScript.

(** ** Worked runs *)

(** A runtime to run the model on: [float] reads plain digit strings and
    the two special spellings, timestamps are read in the one format
    [YYYY-MM-DDTHH:MM:SSZ], a numeric column is [float64] when it has a
    missing value or a number that is no integer, and the interpreter is a
    3.13. *)
Definition digit_value (c : ascii) : option Z :=
  let n := nat_of_ascii c in
  if ((48 <=? n) && (n <=? 57))%nat then Some (Z.of_nat (n - 48)) else None.

Fixpoint digits_value (acc : Z) (s : string) : option Z :=
  match s with
  | EmptyString => Some acc
  | String c rest =>
      match digit_value c with
      | Some d => digits_value (10 * acc + d) rest
      | None => None
      end
  end.

Definition sample_float (s : string) : option pyfloat :=
  if String.eqb s "inf" then Some PosInf
  else if String.eqb s "nan" then Some NaN
  else match s with
       | EmptyString => None
       | _ => option_map (fun z => Fin (inject_Z z)) (digits_value 0 s)
       end.

(** Days from 1970-01-01 to a date of the Gregorian calendar. *)
Definition days_from_civil (y m d : Z) : Z :=
  let y' := if m <=? 2 then y - 1 else y in
  let era := y' / 400 in
  let yoe := y' - era * 400 in
  let mp := (m + 9) mod 12 in
  let doy := (153 * mp + 2) / 5 + d - 1 in
  let doe := yoe * 365 + yoe / 4 - yoe / 100 + doy in
  era * 146097 + doe - 719468.

Definition number_at (s : string) (start len : nat) : option Z :=
  let digits := substring start len s in
  if (String.length digits =? len)%nat then digits_value 0 digits else None.

Definition sample_timestamp (s : string) : option Z :=
  let marks :=
    (substring 4 1 s ++ substring 7 1 s ++ substring 10 1 s
     ++ substring 13 1 s ++ substring 16 1 s ++ substring 19 1 s)%string in
  if (String.length s =? 20)%nat && String.eqb marks "--T::Z" then
    match number_at s 0 4, number_at s 5 2, number_at s 8 2,
          number_at s 11 2, number_at s 14 2, number_at s 17 2 with
    | Some y, Some mo, Some d, Some h, Some mi, Some sec =>
        if (1 <=? mo) && (mo <=? 12) && (1 <=? d) && (d <=? 31)
           && (h <? 24) && (mi <? 60) && (sec <? 60)
        then Some ((((days_from_civil y mo d * 24 + h) * 60 + mi) * 60 + sec)
                   * 1000000000)
        else None
    | _, _, _, _, _, _ => None
    end
  else None.

Definition sample_to_datetime (col : list json) (i : nat) : option Z :=
  match nth i col JNull with
  | JStr s => sample_timestamp s
  | _ => None
  end.

Definition round_half_even (q : Q) : Z :=
  let f := Qfloor q in
  match (q - inject_Z f ?= 1 # 2)%Q with
  | Lt => f
  | Gt => f + 1
  | Eq => if Z.even f then f else f + 1
  end.

Definition scaled (q : Q) (e : Z) : Q :=
  if 0 <=? e then (q / inject_Z (2 ^ e))%Q else (q * inject_Z (2 ^ (- e)))%Q.

(** Round to nearest, ties to even, on a 53-bit significand; overflow and
    subnormal numbers are left out. *)
Definition sample_float64 (q : Q) : Q :=
  if Qeq_bool q 0 then 0%Q
  else
    let a := Qabs q in
    let e0 := Z.log2 (Qnum a) - Z.log2 (Zpos (Qden a)) - 52 in
    let e := if Qle_bool (inject_Z (2 ^ 52)) (scaled a e0) then e0 else e0 - 1 in
    let m := inject_Z (round_half_even (scaled a e)) in
    let r := scaled m (- e) in
    Qred (if Qle_bool 0 q then r else (- r)%Q).

Definition sample_float64_column (name : string) (col : list json) : bool :=
  existsb (fun v =>
             match v with
             | JNull => true
             | JNum q => negb (Qeq_bool (inject_Z (Qfloor q)) q)
             | _ => false
             end) col.

Definition sample_runtime : PyRuntime :=
  {| API_KEY := "secret";
     py_float := sample_float;
     py_str := fun _ => "?";
     nan_sleep_raises := true;
     to_datetime := sample_to_datetime;
     float64_column := sample_float64_column;
     to_float64 := sample_float64 |}.

(** The module at import time: [rate_limiter = AsyncRateLimiter(k)], no
    request sent yet. *)
Definition boot (k : Z) (server : nat -> Request -> Response) (elapsed : list Q)
  : World :=
  {| clock := 0; ticks := elapsed; rate_limiter := AsyncRateLimiter_init k;
     net := server; sent := 0%nat; log := [] |}.

Definition reply (code : Z) (hs : list (string * string)) (b : option json)
  : Response :=
  {| status_code := code; headers := hs; body := b |}.

(** A server that answers the requests of the run from a script, and
    with [fallback] once the script is over. *)
Definition answers (script : list Response) (fallback : Response)
  : nat -> Request -> Response :=
  fun n _ => nth n script fallback.

Definition too_many : Response := reply 429 [] None.

Definition reading_A : json :=
  JObj [("since", JStr "2024-05-01T00:00:00Z");
        ("until", JStr "2024-05-01T01:00:00Z");
        ("averageValue", JNum (29 # 4));
        ("healthAdvice", JStr "Good")].

Definition payload_A : json :=
  JObj [("siteID", JStr "A");
        ("parameters",
         JArr [JObj [("name", JStr "PM2.5"); ("unit", JStr "ug/m3");
                     ("timeSeriesReadings",
                      JArr [JObj [("timeSeriesName", JStr "1HR_AV");
                                  ("readings", JArr [reading_A])]])]])].




Definition site_record (sid : string) : json :=
  JObj [("siteID", JStr sid); ("siteName", JStr sid);
        ("siteType", JStr "Standard");
        ("geometry", JObj [("coordinates", JArr [JNum (289 # 2); JNum (-151 # 4)])])].

Definition listing_ABC : Response :=
  reply 200 []
    (Some (JObj [("totalRecords", JNum 3);
                 ("records", JArr [site_record "A"; site_record "B";
                                   site_record "C"])])).

(** The listing names A, B and C; A has one reading, B is unknown, and C is
    refused four times. *)
Definition world_ABC : World :=
  boot 5
    (answers [listing_ABC; reply 200 [] (Some payload_A); reply 404 [] None]
             too_many)
    [].

(** 429 twice, the first time asking for three seconds, then a payload. *)
Definition world_retry : World :=
  boot 5
    (answers [reply 429 [("Retry-After", "3")] None; too_many]
             (reply 200 [] (Some (JObj [("parameters", JArr [])]))))
    [].

(** One 429 asking to retry after ["inf"] seconds, then a payload. *)
Definition world_parked : World :=
  boot 5
    (answers [reply 429 [("Retry-After", "inf")] None]
             (reply 200 [] (Some (JObj [("parameters", JArr [])]))))
    [].

Definition world_of (first : Response) : World :=
  boot 5 (answers [] first) [].

(** A limiter of one request per second, read at 0, 0, then 1 for good. *)
Definition world_frozen : World :=
  boot 1 (answers [] too_many) [0; 0; 1]%Q.

(** The same limiter, asked again half a second in. *)
Definition world_half : World :=
  boot 1 (answers [] too_many) [0; 0; 1 # 2]%Q.

(** ** Reading the log *)

Fixpoint gets (l : list event) : list Request :=
  match l with
  | [] => []
  | EvGet r :: rest => r :: gets rest
  | _ :: rest => gets rest
  end.

Fixpoint backoffs (l : list event) : list pyfloat :=
  match l with
  | [] => []
  | EvSleep InBackoff d :: rest => d :: backoffs rest
  | _ :: rest => backoffs rest
  end.

Fixpoint tasks (l : list event) : list json :=
  match l with
  | [] => []
  | EvTask sid :: rest => sid :: tasks rest
  | _ :: rest => tasks rest
  end.

Definition limiter_event (e : event) : bool :=
  match e with
  | EvAdmit _ | EvSleep InLimiter _ => true
  | _ => false
  end.

Definition ready (w : World) : Prop := 0 < max_per_sec (rate_limiter w).

(** [w'] is [w] after some effects: same server and limiter setting, the
    log grown by [delta], one request counted per logged GET. *)
Definition grows (w w' : World) (delta : list event) : Prop :=
  net w' = net w /\
  max_per_sec (rate_limiter w') = max_per_sec (rate_limiter w) /\
  log w' = log w ++ delta /\
  sent w' = (sent w + List.length (gets delta))%nat.

(** A delay after which [asyncio.sleep] gives control back. *)
Definition resumes `{PyRuntime} (d : pyfloat) : bool :=
  match d with
  | PosInf => false
  | NaN => negb nan_sleep_raises
  | _ => true
  end.

(** The answer the server will give to the [k]-th request from now, when
    that request is the parameters request of [site_id]. *)
Definition upcoming `{PyRuntime} (w : World) (site_id : json) (k : nat) : Response :=
  net w (sent w + k)%nat (parameters_request site_id).

Definition success_status (code : Z) : bool := (200 <=? code) && (code <=? 299).

(** What [fetch_site_parameters] does with a response that is not a 429. *)
Definition settle (site_id : json) (resp : Response) : outcome json :=
  if status_code resp =? 404 then Ok (not_found_payload site_id)
  else
    let? _ := raise_for_status resp in
    let? data := resp_json resp in
    setitem data "siteID" site_id.

(** [payload] is what [fetch_site_parameters] makes of the server's answers
    to requests for [site_id] that are among the GETs of [delta], the first
    GET of [delta] being request number [sent w] of the run: either the
    answer to one of them, settled, or the exhausted payload when four of
    them were answered 429. *)
Definition fetched `{PyRuntime} (w : World) (delta : list event)
  (site_id payload : json) : Prop :=
  (exists k,
     nth_error (gets delta) k = Some (parameters_request site_id) /\
     status_code (upcoming w site_id k) <> 429 /\
     settle site_id (upcoming w site_id k) = Ok payload)
  \/
  (payload = exhausted_payload site_id /\
   exists ks,
     NoDup ks /\ List.length ks = 4%nat /\
     Forall (fun k =>
               nth_error (gets delta) k = Some (parameters_request site_id) /\
               status_code (upcoming w site_id k) = 429) ks).

(** A response [fetch_site_parameters] turns into a payload or a retry. *)
Definition acceptable (r : Response) : bool :=
  (status_code r =? 429) || (status_code r =? 404)
  || (success_status (status_code r)
      && match body r with Some (JObj _) => true | _ => false end).

(** A status that is none of 429, 404 and 2xx. *)
Definition hard_failure (code : Z) : bool :=
  negb (code =? 429) && negb (code =? 404) && negb (success_status code).

(** A 429 whose delay the timer honours (any other response is). *)
Definition polite `{PyRuntime} (attempt : Z) (r : Response) : bool :=
  negb (status_code r =? 429) || resumes (backoff_delay attempt r).

(** A server that only ever sends 429 (with a delay the timer honours),
    404, or 2xx with a JSON object. *)
Definition well_behaved `{PyRuntime} (server : nat -> Request -> Response) : Prop :=
  forall n r,
    acceptable (server n r) = true /\
    forall attempt, polite attempt (server n r) = true.

(** A payload the summary of [main] lists: its [_error] entry is truthy. *)
Definition has_error (p : json) : bool :=
  match get p "_error" with
  | Ok e => truthy e
  | _ => false
  end.

(** The payloads left when the listed ones are set aside. *)
Definition usable (payloads : list json) : list json :=
  filter (fun p => negb (has_error p)) payloads.

(** *** The payload shape of the parameters route

    [{siteID, parameters: [{name, unit, timeSeriesReadings:
    [{timeSeriesName, readings: [{since, until, ...}]}]}]}], any entry of
    which may be missing or [null].  The three entries the frame is sorted
    by are scalars (strings, numbers, booleans or [null]); the others are
    free. *)

(** [o.get(k)] when [o] is a dict. *)
Definition field (o : json) (k : string) : json :=
  match o with
  | JObj d => match dict_get d k with Some v => v | None => JNull end
  | _ => JNull
  end.

(** The members of a list entry, none when the entry is missing. *)
Definition items (v : json) : list json :=
  match v with
  | JArr l => l
  | _ => []
  end.

Definition is_dict (v : json) : bool :=
  match v with JObj _ => true | _ => false end.







(** What a frame may hold for the value [v] put in a column of values
    [col]: [v] itself, or its nearest double when [v] is a number and the
    column holds nothing but numbers and missing values. *)
Definition stored_as `{PyRuntime} (col : list json) (v v' : json) : Prop :=
  v' = v \/
  (forallb numeric col = true /\ exists q, v = JNum q /\ v' = JNum (to_float64 q)).




(** The window is oldest-first and holds no reading from the future. *)
Definition window_sound (w : World) : Prop :=
  StronglySorted Qle (_win (rate_limiter w)) /\
  Forall (fun t => t <= clock w)%Q (_win (rate_limiter w)).

(** The clock never runs backwards. *)
Definition monotone (w : World) : Prop :=
  Forall (fun d => 0 <= d)%Q (ticks w).

(** Three readings a quarter of a second apart, after two entries at 0 and
    a half. *)
Definition world_ticking : World :=
  {| clock := 1; ticks := [1 # 4; 1 # 4; 1 # 4]%Q;
     rate_limiter := {| max_per_sec := 2; _win := [0; 1 # 2]%Q |};
     net := answers [] too_many; sent := 0%nat; log := [] |}.

(** *** Requests against admissions *)

Definition admitted_by (e : event) : bool :=
  match e with EvAdmit _ => true | _ => false end.

(** Whether the last event of [l] is an admission ([fresh] when [l] is
    empty). *)
Definition gate_after (fresh : bool) (l : list event) : bool :=
  fold_left (fun _ e => admitted_by e) l fresh.

(** Every GET of [l] comes right after an admission by the limiter;
    [fresh] says whether one has just happened. *)
Fixpoint gated (fresh : bool) (l : list event) : bool :=
  match l with
  | [] => true
  | EvGet _ :: rest => fresh && gated false rest
  | e :: rest => gated (admitted_by e) rest
  end.

(** The sleeps asked for inside [acquire]. *)
Fixpoint limiter_sleeps (l : list event) : list pyfloat :=
  match l with
  | [] => []
  | EvSleep InLimiter d :: rest => d :: limiter_sleeps rest
  | _ :: rest => limiter_sleeps rest
  end.

(** What [fetch_site_parameters] has done between [w] and [w']: at most
    [budget] requests, all for [site_id], each right after an admission,
    and no task. *)
Definition within_budget `{PyRuntime} (site_id : json) (budget : nat)
  (w w' : World) : Prop :=
  exists delta,
    grows w w' delta /\
    tasks delta = [] /\
    (List.length (gets delta) <= budget)%nat /\
    Forall (eq (parameters_request site_id)) (gets delta) /\
    gated false delta = true.

(** *** The listing's records *)

Definition is_list (v : json) : bool :=
  match v with JArr _ => true | _ => false end.

(** A record [sites_to_df] can read: a dict whose geometry, when the key is
    there, is a dict whose coordinates are a list or falsy. *)
Definition record_shape (rec : json) : bool :=
  match rec with
  | JObj d =>
      match dict_get d "geometry" with
      | None => true
      | Some (JObj g) =>
          let c := field (JObj g) "coordinates" in
          negb (truthy c) || is_list c
      | Some _ => false
      end
  | _ => false
  end.

Definition coordinates_of (rec : json) : list json :=
  items (field (field rec "geometry") "coordinates").

(** The row of a record: [lon] and [lat] are the first two coordinates,
    [None] where there are fewer. *)
Definition site_row_of (rec : json) : SiteRow :=
  {| site_siteID := field rec "siteID";
     site_siteName := field rec "siteName";
     site_siteType := field rec "siteType";
     site_lon := nth 0 (coordinates_of rec) JNull;
     site_lat := nth 1 (coordinates_of rec) JNull |}.

(** Row [f] holds the cells of row [r] of [rows], column by column. *)
Definition site_stored `{PyRuntime} (rows : list SiteRow) (r f : SiteRow) : Prop :=
  stored_as (map site_siteID rows) (site_siteID r) (site_siteID f) /\
  stored_as (map site_siteName rows) (site_siteName r) (site_siteName f) /\
  stored_as (map site_siteType rows) (site_siteType r) (site_siteType f) /\
  stored_as (map site_lon rows) (site_lon r) (site_lon f) /\
  stored_as (map site_lat rows) (site_lat r) (site_lat f).

(** A record the listing script can print: a dict whose geometry, when the
    key is there, is a dict. *)
Definition printable (rec : json) : bool :=
  match rec with
  | JObj d =>
      match dict_get d "geometry" with
      | None | Some (JObj _) => true
      | Some _ => false
      end
  | _ => false
  end.

Definition site_line_of (rec : json) : SiteListScript.line :=
  SiteListScript.SiteLine (field rec "siteName") (field rec "siteType")
    (field rec "siteID") (field (field rec "geometry") "coordinates").

(** A listing with a geometry that is [null]. *)
Definition listing_null_geometry : Response :=
  reply 200 []
    (Some (JObj [("totalRecords", JNum 2);
                 ("records",
                  JArr [site_record "A";
                        JObj [("siteID", JStr "B"); ("geometry", JNull)]])])).

(** A listing that names A twice and has a record without an id. *)
Definition listing_repeats : Response :=
  reply 200 []
    (Some (JObj [("records",
                  JArr [site_record "A"; JObj [("siteName", JStr "nameless")];
                        site_record "B"; site_record "A"])])).

(** A limiter of one request per second holding the entry of a request
    made at 0, asked again a quarter of a second later. *)
Definition world_waiting : World :=
  {| clock := 0; ticks := [1 # 4]%Q;
     rate_limiter := {| max_per_sec := 1; _win := [0]%Q |};
     net := answers [] too_many; sent := 0%nat; log := [] |}.

(** The listing names A twice; neither A nor B has data. *)
Definition world_repeats : World :=
  boot 5 (answers [listing_repeats] (reply 404 [] None)) [].

(** * Properties *)

Lemma gets_app l1 l2 : gets (l1 ++ l2) = gets l1 ++ gets l2.
Proof.
  induction l1 as [|e l1 IH]; simpl; [reflexivity|].
  destruct e; simpl; rewrite IH; reflexivity.
Qed.

Lemma backoffs_app l1 l2 : backoffs (l1 ++ l2) = backoffs l1 ++ backoffs l2.
Proof.
  induction l1 as [|e l1 IH]; simpl; [reflexivity|].
  destruct e as [| |[| |] d|]; simpl; rewrite IH; reflexivity.
Qed.

Lemma tasks_app l1 l2 : tasks (l1 ++ l2) = tasks l1 ++ tasks l2.
Proof.
  induction l1 as [|e l1 IH]; simpl; [reflexivity|].
  destruct e; simpl; rewrite IH; reflexivity.
Qed.

Lemma limiter_events_silent l :
  forallb limiter_event l = true ->
  gets l = [] /\ backoffs l = [] /\ tasks l = [].
Proof.
  induction l as [|e l IH]; simpl; [auto|].
  intros H. apply andb_true_iff in H. destruct H as [He Hl].
  destruct (IH Hl) as (G & B & T).
  destruct e as [| |[| |] d|]; simpl in *; try discriminate; auto.
Qed.

Lemma grows_refl w : grows w w [].
Proof.
  unfold grows. rewrite app_nil_r. simpl. rewrite Nat.add_0_r. auto.
Qed.

Lemma grows_trans w1 w2 w3 d1 d2 :
  grows w1 w2 d1 -> grows w2 w3 d2 -> grows w1 w3 (d1 ++ d2).
Proof.
  intros (N1 & K1 & L1 & S1) (N2 & K2 & L2 & S2). unfold grows.
  rewrite N2, N1, K2, K1, L2, L1, S2, S1, gets_app, length_app, app_assoc.
  repeat split. lia.
Qed.

Section Limiter.
Context `{PyRuntime}.

Lemma acquire_grows w :
  exists delta, grows w (snd (acquire w)) delta /\
                forallb limiter_event delta = true.
Proof.
  unfold acquire, bind, loop_time, get_win, set_win, get_max_per_sec, emit,
    ret, raise, sleep, with_log, advance, grows; simpl.
  set (now := match ticks w with [] => clock w | d :: _ => (clock w + d)%Q end).
  destruct (Z.of_nat (List.length (prune now (_win (rate_limiter w))))
            >=? max_per_sec (rate_limiter w)); simpl.
  - destruct (prune now (_win (rate_limiter w))) as [|oldest rest]; simpl.
    + exists []. rewrite app_nil_r. simpl. auto.
    + destruct (Qle_bool (1 - (now - oldest)) 0); simpl.
      * eexists [_]. simpl. repeat split; auto.
      * destruct (Qle_bool (1 - (now - oldest)) 0); simpl;
          eexists [_; _]; simpl; rewrite <- app_assoc; simpl; repeat split; auto.
  - eexists [_]. simpl. repeat split; auto.
Qed.

Lemma acquire_returns w : ready w -> fst (acquire w) = Ok tt.
Proof.
  unfold ready, acquire, bind, loop_time, get_win, set_win, get_max_per_sec,
    emit, ret, raise, sleep, with_log, advance; simpl.
  set (now := match ticks w with [] => clock w | d :: _ => (clock w + d)%Q end).
  intros Hk.
  destruct (Z.geb_spec (Z.of_nat (List.length (prune now (_win (rate_limiter w)))))
              (max_per_sec (rate_limiter w))) as [Hge|Hlt]; simpl; [|reflexivity].
  destruct (prune now (_win (rate_limiter w))) as [|oldest rest]; simpl in *; [lia|].
  destruct (Qle_bool (1 - (now - oldest)) 0); simpl; [reflexivity|].
  destruct (Qle_bool (1 - (now - oldest)) 0); reflexivity.
Qed.

End Limiter.

Section Fetch.
Context `{PyRuntime}.

Lemma sleep_resumes who d w :
  resumes d = true ->
  exists w', sleep who d w = (Ok tt, w') /\ grows w w' [EvSleep who d] /\
             (ready w -> ready w').
Proof.
  intros R. unfold sleep, resumes in *.
  destruct d as [q| | |]; try discriminate; simpl.
  - destruct (Qle_bool q 0); eexists; (split; [reflexivity|]);
      unfold grows, ready; simpl; rewrite Nat.add_0_r; auto.
  - eexists; (split; [reflexivity|]);
      unfold grows, ready; simpl; rewrite Nat.add_0_r; auto.
  - destruct nan_sleep_raises; try discriminate.
    eexists; (split; [reflexivity|]);
      unfold grows, ready; simpl; rewrite Nat.add_0_r; auto.
Qed.

(** One turn of the loop: the limiter admits, one GET goes out, and the
    response decides. *)
Lemma attempt_unfold sid attempt rest w :
  ready w ->
  exists w1 delta,
    grows w w1 (delta ++ [EvGet (parameters_request sid)]) /\
    forallb limiter_event delta = true /\
    ready w1 /\
    fetch_site_parameters_loop sid (attempt :: rest) w =
      let resp := upcoming w sid 0 in
      if status_code resp =? 429 then
        bind (sleep InBackoff (backoff_delay attempt resp))
             (fun _ => fetch_site_parameters_loop sid rest) w1
      else (settle sid resp, w1).
Proof.
  intros R.
  destruct (acquire_grows w) as (delta & G & L).
  pose proof (acquire_returns w R) as A.
  destruct (acquire w) as [o w0] eqn:E. simpl in A, G. subst o.
  destruct G as (N & K & Lg & Sn).
  exists (with_log {| clock := clock w0; ticks := ticks w0;
                      rate_limiter := rate_limiter w0; net := net w0;
                      sent := S (sent w0); log := log w0 |}
                   (EvGet (parameters_request sid))), delta.
  destruct (limiter_events_silent _ L) as (Gd & _ & _).
  rewrite Gd in Sn. simpl in Sn. rewrite Nat.add_0_r in Sn.
  repeat split.
  - simpl. exact N.
  - simpl. exact K.
  - simpl. rewrite Lg, app_assoc. reflexivity.
  - simpl. rewrite gets_app, Gd. simpl. lia.
  - exact L.
  - unfold ready in *. simpl. rewrite K. exact R.
  - cbn [fetch_site_parameters_loop]. unfold bind at 1. rewrite E.
    unfold bind at 1. unfold client_get at 1. cbn beta iota.
    unfold upcoming. rewrite Nat.add_0_r, N, Sn. cbn zeta.
    unfold with_log. simpl.
    destruct (status_code (net w (sent w) (parameters_request sid)) =? 429);
      [reflexivity|].
    unfold settle.
    destruct (status_code (net w (sent w) (parameters_request sid)) =? 404);
      [reflexivity|].
    unfold bind, lift, obind.
    destruct (raise_for_status _); try reflexivity.
    destruct (resp_json _); reflexivity.
Qed.

Lemma upcoming_next sid w w' delta k :
  grows w w' delta -> List.length (gets delta) = 1%nat ->
  upcoming w' sid k = upcoming w sid (S k).
Proof.
  intros (N & _ & _ & Sn) L. unfold upcoming.
  rewrite N, Sn, L. f_equal. lia.
Qed.

(** A 429 that the timer honours hands the rest of the budget to the next
    turn, one request and one backoff sleep later. *)
Lemma attempt_429 sid attempt rest w :
  ready w ->
  status_code (upcoming w sid 0) = 429 ->
  resumes (backoff_delay attempt (upcoming w sid 0)) = true ->
  exists w' delta,
    fetch_site_parameters_loop sid (attempt :: rest) w =
      fetch_site_parameters_loop sid rest w' /\
    ready w' /\ grows w w' delta /\
    gets delta = [parameters_request sid] /\
    backoffs delta = [backoff_delay attempt (upcoming w sid 0)] /\
    tasks delta = [].
Proof.
  intros R S429 Res.
  destruct (attempt_unfold sid attempt rest w R) as (w1 & d1 & G1 & L1 & R1 & E).
  cbn zeta in E. rewrite S429 in E. simpl in E.
  destruct (sleep_resumes InBackoff _ w1 Res) as (w2 & Es & G2 & R2).
  unfold bind in E. rewrite Es in E.
  destruct (limiter_events_silent _ L1) as (Gd & Bd & Td).
  exists w2, ((d1 ++ [EvGet (parameters_request sid)])
              ++ [EvSleep InBackoff (backoff_delay attempt (upcoming w sid 0))]).
  split; [exact E|]. split; [auto|].
  split; [eapply grows_trans; eauto|].
  rewrite !gets_app, !backoffs_app, !tasks_app, Gd, Bd, Td. auto.
Qed.

(** Any other response ends the call where the GET left the world. *)
Lemma attempt_settles sid attempt rest w :
  ready w ->
  status_code (upcoming w sid 0) <> 429 ->
  exists w' delta,
    fetch_site_parameters_loop sid (attempt :: rest) w =
      (settle sid (upcoming w sid 0), w') /\
    ready w' /\ grows w w' delta /\
    gets delta = [parameters_request sid] /\
    backoffs delta = [] /\ tasks delta = [].
Proof.
  intros R S.
  destruct (attempt_unfold sid attempt rest w R) as (w1 & d1 & G1 & L1 & R1 & E).
  cbn zeta in E.
  destruct (Z.eqb_spec (status_code (upcoming w sid 0)) 429) as [?|_]; [contradiction|].
  destruct (limiter_events_silent _ L1) as (Gd & Bd & Td).
  exists w1, (d1 ++ [EvGet (parameters_request sid)]).
  split; [exact E|]. split; [exact R1|]. split; [exact G1|].
  rewrite gets_app, backoffs_app, tasks_app, Gd, Bd, Td. auto.
Qed.

(** [n] honoured 429s in a row use up the first [n] turns. *)
Lemma run_of_429s sid n : forall attempts w,
  ready w ->
  (n <= List.length attempts)%nat ->
  (forall k, (k < n)%nat ->
     status_code (upcoming w sid k) = 429 /\
     resumes (backoff_delay (nth k attempts 0) (upcoming w sid k)) = true) ->
  exists w' delta,
    fetch_site_parameters_loop sid attempts w =
      fetch_site_parameters_loop sid (skipn n attempts) w' /\
    ready w' /\ grows w w' delta /\
    gets delta = repeat (parameters_request sid) n /\
    backoffs delta =
      map (fun k => backoff_delay (nth k attempts 0) (upcoming w sid k)) (seq 0 n) /\
    tasks delta = [].
Proof.
  induction n as [|n IH]; intros attempts w R Hlen H429.
  - exists w, []. simpl. auto 10 using grows_refl.
  - destruct attempts as [|a rest]; [simpl in Hlen; lia|].
    destruct (H429 0%nat ltac:(lia)) as (S0 & R0). simpl in R0.
    destruct (attempt_429 sid a rest w R S0 R0) as (w1 & d1 & E1 & R1 & G1 & Gd & Bd & Td).
    destruct (IH rest w1 R1) as (w2 & d2 & E2 & R2 & G2 & Gd2 & Bd2 & Td2).
    + simpl in Hlen. lia.
    + intros k Hk. rewrite (upcoming_next sid w w1 d1 k G1) by (rewrite Gd; reflexivity).
      apply (H429 (S k)). lia.
    + exists w2, (d1 ++ d2). rewrite E1, E2. simpl skipn.
      split; [reflexivity|]. split; [exact R2|].
      split; [eapply grows_trans; eauto|].
      rewrite gets_app, backoffs_app, tasks_app, Gd, Gd2, Bd, Bd2, Td, Td2.
      split; [reflexivity|]. split; [|reflexivity].
      simpl. f_equal.
      rewrite <- seq_shift, map_map. apply map_ext_in. intros k _.
      rewrite (upcoming_next sid w w1 d1 k G1) by (rewrite Gd; reflexivity).
      reflexivity.
Qed.

Lemma nth_range k n : (k < n)%nat -> nth k (range n) 0 = Z.of_nat k.
Proof.
  intros Hk. unfold range.
  rewrite (nth_indep _ 0 (Z.of_nat 0)) by (rewrite length_map, length_seq; exact Hk).
  rewrite map_nth, seq_nth by exact Hk. reflexivity.
Qed.

End Fetch.

Section FetchClaims.
Context `{PyRuntime}.

Lemma get_after_set d k v : get (JObj (dict_set d k v)) k = Ok v.
Proof.
  unfold get, get_default. f_equal.
  induction d as [|[k' v'] d IH]; simpl.
  - rewrite String.eqb_refl. reflexivity.
  - destruct (String.eqb k' k) eqn:E; simpl; rewrite E; [reflexivity|exact IH].
Qed.

Lemma settle_200 sid resp d :
  status_code resp = 200 -> body resp = Some (JObj d) ->
  settle sid resp = Ok (JObj (dict_set d "siteID" sid)).
Proof.
  intros S B. unfold settle, raise_for_status, resp_json.
  rewrite S, B. reflexivity.
Qed.

(** C4, amended: a server that answers 429 exactly [a] times, each with a
    delay the timer honours, and then 200 with a JSON object, [a < 4], makes
    [fetch_site_parameters] return that object, tagged with the site id,
    after exactly [a + 1] requests; four such 429s in a row make it return
    the payload marked ["exhausted retries"] after exactly four requests.
    Without the two provisos the call need not return a payload: a 429
    whose Retry-After reads as infinity parks it before the 200 is ever
    asked for. *)
Theorem fetch_site_parameters_retries sid w :
  ready w ->
  (forall a d,
     (a < 4)%nat ->
     (forall k, (k < a)%nat ->
        status_code (upcoming w sid k) = 429 /\
        resumes (backoff_delay (Z.of_nat k) (upcoming w sid k)) = true) ->
     status_code (upcoming w sid a) = 200 ->
     body (upcoming w sid a) = Some (JObj d) ->
     exists w',
       fetch_site_parameters sid w = (Ok (JObj (dict_set d "siteID" sid)), w') /\
       sent w' = (sent w + (a + 1))%nat /\
       gets (log w') = gets (log w) ++ repeat (parameters_request sid) (a + 1))
  /\
  ((forall k, (k < 4)%nat ->
      status_code (upcoming w sid k) = 429 /\
      resumes (backoff_delay (Z.of_nat k) (upcoming w sid k)) = true) ->
   exists w',
     fetch_site_parameters sid w = (Ok (exhausted_payload sid), w') /\
     sent w' = (sent w + 4)%nat /\
     gets (log w') = gets (log w) ++ repeat (parameters_request sid) 4 /\
     get (exhausted_payload sid) "_error" = Ok (JStr "exhausted retries")).
Proof.
  intros R. split.
  - intros a d Ha H429 S200 B.
    destruct (run_of_429s sid a (range 4) w R) as (w1 & d1 & E1 & R1 & G1 & Gd1 & _ & _).
    + unfold range. rewrite length_map, length_seq. lia.
    + intros k Hk. rewrite nth_range by lia. auto.
    + assert (U : upcoming w1 sid 0 = upcoming w sid a).
      { destruct G1 as (N & _ & _ & Sn). unfold upcoming.
        rewrite N, Sn, Gd1, repeat_length, Nat.add_0_r. reflexivity. }
      destruct (skipn a (range 4)) as [|att rest] eqn:Esk.
      { apply (f_equal (@List.length Z)) in Esk. rewrite length_skipn in Esk.
        unfold range in Esk. rewrite length_map, length_seq in Esk.
        cbn [List.length] in Esk. lia. }
      destruct (attempt_settles sid att rest w1 R1) as (w2 & d2 & E2 & _ & G2 & Gd2 & _ & _).
      { rewrite U, S200. discriminate. }
      exists w2. unfold fetch_site_parameters. rewrite E1, E2, U.
      rewrite (settle_200 sid _ d S200 B).
      split; [reflexivity|].
      destruct (grows_trans _ _ _ _ _ G1 G2) as (_ & _ & Lg & Sn).
      rewrite Sn, Lg, !gets_app, Gd1, Gd2, length_app, repeat_length.
      split; [reflexivity|].
      f_equal. rewrite repeat_app. reflexivity.
  - intros H429.
    destruct (run_of_429s sid 4 (range 4) w R) as (w1 & d1 & E1 & R1 & G1 & Gd1 & _ & _).
    + reflexivity.
    + intros k Hk. rewrite nth_range by lia. auto.
    + exists w1. unfold fetch_site_parameters. rewrite E1.
      split; [reflexivity|].
      destruct G1 as (_ & _ & Lg & Sn).
      rewrite Sn, Lg, gets_app, Gd1. auto.
Qed.

Lemma sleep_grows who d w : grows w (snd (sleep who d w)) [EvSleep who d].
Proof.
  unfold sleep, grows, with_log, advance.
  destruct d as [q| | |]; simpl; try destruct (Qle_bool q 0); simpl;
    rewrite Nat.add_0_r; auto.
Qed.

Lemma grows_quiet_trans w1 w2 w3 d1 d2 :
  grows w1 w2 d1 /\ tasks d1 = [] -> grows w2 w3 d2 /\ tasks d2 = [] ->
  grows w1 w3 (d1 ++ d2) /\ tasks (d1 ++ d2) = [].
Proof.
  intros (G1 & T1) (G2 & T2). split; [eapply grows_trans; eauto|].
  rewrite tasks_app, T1, T2. reflexivity.
Qed.

Lemma acquire_quiet w :
  exists delta, grows w (snd (acquire w)) delta /\ tasks delta = [].
Proof.
  destruct (acquire_grows w) as (d & G & L). exists d. split; [exact G|].
  apply (limiter_events_silent _ L).
Qed.

(** Whatever happens, the call only adds to the log, and starts no task. *)
Lemma loop_grows sid attempts : forall w,
  exists delta,
    grows w (snd (fetch_site_parameters_loop sid attempts w)) delta /\
    tasks delta = [].
Proof.
  induction attempts as [|a rest IH]; intros w.
  - exists []. split; [apply grows_refl|reflexivity].
  - cbn [fetch_site_parameters_loop]. unfold bind at 1.
    destruct (acquire_quiet w) as (d0 & G0).
    destruct (acquire w) as [[[]| |] w0]; simpl in G0;
      try (exists d0; exact G0).
    unfold bind at 1. unfold client_get at 1. cbn beta iota zeta.
    set (w1 := {| clock := clock w0; ticks := ticks w0;
                  rate_limiter := rate_limiter w0; net := net w0;
                  sent := S (sent w0);
                  log := log w0 ++ [EvGet (parameters_request sid)] |}).
    assert (G1 : grows w0 w1 [EvGet (parameters_request sid)]
                 /\ tasks [EvGet (parameters_request sid)] = []).
    { unfold grows, w1. simpl. repeat split. lia. }
    pose proof (grows_quiet_trans _ _ _ _ _ G0 G1) as G01.
    set (resp := net w0 (sent w0) (parameters_request sid)).
    destruct (status_code resp =? 429).
    + unfold bind.
      assert (G2 : grows w1 (snd (sleep InBackoff (backoff_delay a resp) w1))
                     [EvSleep InBackoff (backoff_delay a resp)]
                   /\ tasks [EvSleep InBackoff (backoff_delay a resp)] = []).
      { split; [apply sleep_grows|reflexivity]. }
      pose proof (grows_quiet_trans _ _ _ _ _ G01 G2) as G012.
      destruct (sleep InBackoff (backoff_delay a resp) w1) as [[[]| |] w2];
        simpl in G012; try (eexists; exact G012).
      destruct (IH w2) as (d3 & G3). eexists.
      exact (grows_quiet_trans _ _ _ _ _ G012 G3).
    + exists (d0 ++ [EvGet (parameters_request sid)]).
      destruct (status_code resp =? 404); [exact G01|].
      unfold bind, lift.
      destruct (raise_for_status resp); simpl; try exact G01.
      destruct (resp_json resp); simpl; exact G01.
Qed.

Lemma skipn_range a :
  (a < 4)%nat -> exists rest, skipn a (range 4) = Z.of_nat a :: rest.
Proof.
  intros Ha. destruct a as [|[|[|[|a]]]]; try lia; eexists; reflexivity.
Qed.


(** C2, amended: a 404 on the first attempt ends the call there, after one
    request and no backoff sleep, with the payload of the site id and an
    empty parameters list.  The payload has no [_error] entry, which sets
    it apart from the exhausted one, but it is the very dict a 200 response
    with an empty parameters list yields. *)
Theorem not_found_on_first_attempt sid w :
  ready w ->
  status_code (upcoming w sid 0) = 404 ->
  (exists w' delta,
     fetch_site_parameters sid w = (Ok (not_found_payload sid), w') /\
     grows w w' delta /\
     gets delta = [parameters_request sid] /\
     backoffs delta = []) /\
  get (not_found_payload sid) "_error" = Ok JNull /\
  not_found_payload sid <> exhausted_payload sid /\
  (forall w2 other,
     ready w2 ->
     status_code (upcoming w2 sid 0) = 200 ->
     body (upcoming w2 sid 0) =
       Some (JObj [("siteID", other); ("parameters", JArr [])]) ->
     fst (fetch_site_parameters sid w2) = Ok (not_found_payload sid)).
Proof.
  intros R S404. split; [|split; [reflexivity|split; [discriminate|]]].
  - destruct (attempt_settles sid 0 [1; 2; 3] w R) as (w1 & d1 & E1 & _ & G1 & Gd1 & Bd1 & _).
    { rewrite S404. discriminate. }
    exists w1, d1. unfold fetch_site_parameters.
    change (range 4) with [0; 1; 2; 3]. rewrite E1.
    unfold settle. rewrite S404. auto.
  - intros w2 other R2 S200 B.
    destruct (attempt_settles sid 0 [1; 2; 3] w2 R2) as (w3 & d3 & E3 & _).
    { rewrite S200. discriminate. }
    unfold fetch_site_parameters. change (range 4) with [0; 1; 2; 3].
    rewrite E3. simpl. rewrite (settle_200 sid _ _ S200 B). reflexivity.
Qed.

Lemma loop_returns sid attempts : forall w,
  ready w ->
  (forall k, (k < List.length attempts)%nat ->
     acceptable (upcoming w sid k) = true /\
     polite (nth k attempts 0) (upcoming w sid k) = true) ->
  exists payload w',
    fetch_site_parameters_loop sid attempts w = (Ok payload, w') /\
    get payload "siteID" = Ok sid.
Proof.
  induction attempts as [|a rest IH]; intros w R Hall.
  - exists (exhausted_payload sid), w. split; reflexivity.
  - destruct (Hall 0%nat ltac:(simpl; lia)) as (A0 & P0). simpl in P0.
    destruct (Z.eqb_spec (status_code (upcoming w sid 0)) 429) as [S429|Sno].
    + unfold polite in P0. rewrite S429 in P0. simpl in P0.
      destruct (attempt_429 sid a rest w R S429 P0) as (w1 & d1 & E1 & R1 & G1 & Gd1 & _).
      destruct (IH w1 R1) as (payload & w2 & E2 & Hid).
      { intros k Hk.
        rewrite (upcoming_next sid w w1 d1 k G1) by (rewrite Gd1; reflexivity).
        apply (Hall (S k)). simpl. lia. }
      exists payload, w2. rewrite E1. auto.
    + destruct (attempt_settles sid a rest w R Sno) as (w1 & d1 & E1 & _).
      rewrite E1. unfold acceptable in A0. unfold settle.
      destruct (Z.eqb_spec (status_code (upcoming w sid 0)) 429) as [?|_];
        [contradiction|].
      destruct (status_code (upcoming w sid 0) =? 404).
      * exists (not_found_payload sid), w1. split; reflexivity.
      * simpl in A0. apply andb_true_iff in A0. destruct A0 as (A1 & A2).
        unfold raise_for_status, resp_json. unfold success_status in A1.
        rewrite A1. simpl.
        destruct (body (upcoming w sid 0)) as [[| | | | |d]|]; try discriminate.
        simpl. eexists _, w1. split; [reflexivity|]. apply get_after_set.
Qed.

(** C1, amended: when each of the (at most four) responses is a 429 with a
    delay the timer honours, a 404, or a 2xx carrying a JSON object,
    [fetch_site_parameters] returns a payload for the site id and raises
    nothing.  When the first response that is not a 429 has a status that is
    none of 404 and 2xx, the call raises [HTTPStatusError] with that status
    to its caller: [raise_for_status] is not caught. *)
Theorem fetch_site_parameters_outcomes sid w :
  ready w ->
  (forall k, (k < 4)%nat -> polite (Z.of_nat k) (upcoming w sid k) = true) ->
  ((forall k, (k < 4)%nat -> acceptable (upcoming w sid k) = true) ->
   exists payload w',
     fetch_site_parameters sid w = (Ok payload, w') /\
     get payload "siteID" = Ok sid)
  /\
  (forall k, (k < 4)%nat ->
     (forall j, (j < k)%nat -> status_code (upcoming w sid j) = 429) ->
     hard_failure (status_code (upcoming w sid k)) = true ->
     exists w',
       fetch_site_parameters sid w =
         (Raise (HTTPStatusError (status_code (upcoming w sid k))), w')).
Proof.
  intros R P. split.
  - intros A. apply loop_returns; [exact R|].
    unfold range. rewrite length_map, length_seq. intros k Hk.
    fold (range 4). rewrite nth_range by exact Hk. auto.
  - intros k Hk H429 Hard.
    destruct (run_of_429s sid k (range 4) w R) as (w1 & d1 & E1 & R1 & G1 & Gd1 & _).
    { unfold range. rewrite length_map, length_seq. lia. }
    { intros j Hj. rewrite nth_range by lia. split; [auto|].
      specialize (P j ltac:(lia)). unfold polite in P.
      rewrite (H429 j Hj) in P. exact P. }
    assert (U : upcoming w1 sid 0 = upcoming w sid k).
    { destruct G1 as (N & _ & _ & Sn). unfold upcoming.
      rewrite N, Sn, Gd1, repeat_length, Nat.add_0_r. reflexivity. }
    destruct (skipn_range k Hk) as (rest & Esk).
    unfold hard_failure in Hard.
    apply andb_true_iff in Hard. destruct Hard as (Hard & H2xx).
    apply andb_true_iff in Hard. destruct Hard as (Hn429 & Hn404).
    destruct (attempt_settles sid (Z.of_nat k) rest w1 R1) as (w2 & d2 & E2 & _).
    { rewrite U. intros S429. rewrite S429 in Hn429. discriminate. }
    exists w2. unfold fetch_site_parameters. rewrite E1, Esk, E2, U.
    unfold settle, raise_for_status. unfold success_status in H2xx.
    destruct (status_code (upcoming w sid k) =? 404); [discriminate|].
    destruct ((200 <=? status_code (upcoming w sid k))
              && (status_code (upcoming w sid k) <=? 299)); [discriminate|].
    reflexivity.
Qed.

End FetchClaims.

Section Pool.
Context `{PyRuntime}.

Lemma grows_ready w w' delta : grows w w' delta -> ready w -> ready w'.
Proof. intros (_ & K & _) R. unfold ready in *. rewrite K. exact R. Qed.

Lemma loop_ok_site_id sid attempts : forall w payload w',
  ready w ->
  fetch_site_parameters_loop sid attempts w = (Ok payload, w') ->
  get payload "siteID" = Ok sid.
Proof.
  induction attempts as [|a rest IH]; intros w payload w' R E.
  - simpl in E. injection E as <- _. reflexivity.
  - destruct (attempt_unfold sid a rest w R) as (w1 & d1 & G1 & _ & R1 & E1).
    rewrite E1 in E. cbn zeta in E.
    destruct (status_code (upcoming w sid 0) =? 429).
    + unfold bind in E.
      pose proof (sleep_grows InBackoff (backoff_delay a (upcoming w sid 0)) w1) as G2.
      destruct (sleep InBackoff _ w1) as [[[]| |] w2]; try discriminate.
      simpl in G2. apply (IH w2 payload w'); [|exact E].
      eapply grows_ready; eauto.
    + injection E as E _. unfold settle in E.
      destruct (status_code (upcoming w sid 0) =? 404).
      * injection E as <-. reflexivity.
      * destruct (raise_for_status _); try discriminate. simpl in E.
        destruct (resp_json _) as [data| |]; try discriminate. simpl in E.
        destruct data; try discriminate. injection E as <-.
        apply get_after_set.
Qed.

Lemma gather_ok {A} (os : list (outcome A)) l : gather os = Ok l -> os = map Ok l.
Proof.
  unfold gather. destruct (first_raise os); [discriminate|].
  destruct (all_ok os) as [l'|] eqn:E; [|discriminate].
  intros [= <-]. revert l' E.
  induction os as [|[a|e|] os IH]; simpl; intros l' E; try discriminate.
  - injection E as <-. reflexivity.
  - destruct (all_ok os) as [l0|]; [|discriminate].
    injection E as <-. simpl. f_equal. apply IH. reflexivity.
Qed.

Lemma gather_all_ok {A} (l : list A) : gather (map Ok l) = Ok l.
Proof.
  unfold gather.
  assert (F : first_raise (map (@Ok A) l) = None)
    by (induction l; simpl; auto).
  assert (O : all_ok (map (@Ok A) l) = Some l)
    by (induction l as [|a l IH]; simpl; [|rewrite IH]; auto).
  rewrite F, O. reflexivity.
Qed.

(** The loop that creates the tasks: one task per id, in order; a worker
    that returns hands back a payload for its own id; and with a free slot
    and a well-behaved server every worker returns. *)
Lemma spawn_workers_spec site_ids : forall free w,
  ready w ->
  (exists delta,
     grows w (snd (spawn_workers free site_ids w)) delta /\
     tasks delta = site_ids) /\
  Forall2 (fun sid o => forall payload, o = Ok payload ->
                                        get payload "siteID" = Ok sid)
          site_ids (fst (spawn_workers free site_ids w)) /\
  (0 < free -> well_behaved (net w) ->
   exists results, fst (spawn_workers free site_ids w) = map Ok results).
Proof.
  induction site_ids as [|sid rest IH]; intros free w R.
  - simpl. split; [exists []; split; [apply grows_refl|reflexivity]|].
    split; [constructor|]. intros _ _. exists []. reflexivity.
  - cbn [spawn_workers].
    set (w1 := with_log w (EvTask sid)).
    assert (G1 : grows w w1 [EvTask sid]).
    { unfold grows, w1, with_log. simpl. rewrite Nat.add_0_r. auto. }
    assert (R1 : ready w1) by (eapply grows_ready; eauto).
    assert (Hrun : exists o w2 d2,
               (if free <=? 0 then (Hang, w1) else fetch_site_parameters sid w1)
                 = (o, w2) /\
               grows w1 w2 d2 /\ tasks d2 = [] /\
               (forall payload, o = Ok payload -> get payload "siteID" = Ok sid) /\
               (0 < free -> well_behaved (net w) -> exists payload, o = Ok payload)).
    { destruct (Z.leb_spec free 0) as [Hf|Hf].
      - exists Hang, w1, []. split; [reflexivity|]. split; [apply grows_refl|].
        split; [reflexivity|]. split; [discriminate|]. intros; lia.
      - destruct (loop_grows sid (range 4) w1) as (d2 & G2 & T2).
        fold (fetch_site_parameters sid) in G2.
        destruct (fetch_site_parameters sid w1) as [o w2] eqn:E. simpl in G2.
        exists o, w2, d2. split; [reflexivity|]. split; [exact G2|].
        split; [exact T2|]. split.
        + intros payload ->. eapply loop_ok_site_id; eauto.
        + intros _ WB.
          destruct (loop_returns sid (range 4) w1 R1) as (payload & w2' & E2 & _).
          { intros k _. unfold upcoming. destruct G1 as (N & _). rewrite N.
            destruct (WB (sent w1 + k)%nat (parameters_request sid)) as (A & P).
            auto. }
          unfold fetch_site_parameters in E. rewrite E2 in E.
          injection E as <- _. eauto. }
    destruct Hrun as (o & w2 & d2 & E2 & G2 & T2 & Hid & Hok). rewrite E2.
    pose proof (sleep_grows InStagger (Fin (1 # 100)) w2) as G3.
    destruct (sleep InStagger (Fin (1 # 100)) w2) as [o3 w3]. simpl in G3.
    pose proof (grows_trans _ _ _ _ _ (grows_trans _ _ _ _ _ G1 G2) G3) as G123.
    assert (R3 : ready w3) by (eapply grows_ready; eauto).
    set (free' := match o with
                  | Hang => if free <=? 0 then free else free - 1
                  | _ => free
                  end).
    destruct (IH free' w3 R3) as ((d4 & G4 & T4) & F4 & Ok4).
    destruct (spawn_workers free' rest w3) as [os w4]. simpl in *.
    split; [|split].
    + exists ((([EvTask sid] ++ d2) ++ [EvSleep InStagger (Fin (1 # 100))]) ++ d4).
      split; [exact (grows_trans _ _ _ _ _ G123 G4)|].
      rewrite !tasks_app, T2, T4. reflexivity.
    + constructor; assumption.
    + intros Hf WB. destruct (Hok Hf WB) as (payload & ->).
      destruct Ok4 as (results & ->).
      * exact Hf.
      * destruct G123 as (N & _). rewrite N. exact WB.
      * exists (payload :: results). reflexivity.
Qed.

(** A payload the loop returns comes from the answers to its own requests:
    the first answer that is not a 429, or the exhausted payload when every
    turn met a 429. *)
Lemma loop_fetched sid attempts : forall w payload w',
  ready w ->
  fetch_site_parameters_loop sid attempts w = (Ok payload, w') ->
  exists delta n,
    grows w w' delta /\
    gets delta = repeat (parameters_request sid) n /\
    ((exists k, (k < n)%nat /\
                status_code (upcoming w sid k) <> 429 /\
                settle sid (upcoming w sid k) = Ok payload)
     \/
     (payload = exhausted_payload sid /\ n = List.length attempts /\
      forall k, (k < n)%nat -> status_code (upcoming w sid k) = 429)).
Proof.
  induction attempts as [|a rest IH]; intros w payload w' R E.
  - simpl in E. injection E as <- <-. exists [], 0%nat.
    split; [apply grows_refl|]. split; [reflexivity|].
    right. split; [reflexivity|]. split; [reflexivity|]. intros k Hk. lia.
  - destruct (attempt_unfold sid a rest w R) as (w1 & d1 & G1 & L1 & R1 & E1).
    rewrite E1 in E. cbn zeta in E.
    destruct (limiter_events_silent _ L1) as (Gd & _ & _).
    assert (Gg : gets (d1 ++ [EvGet (parameters_request sid)])
                 = [parameters_request sid])
      by (rewrite gets_app, Gd; reflexivity).
    destruct (Z.eqb_spec (status_code (upcoming w sid 0)) 429) as [S429|Sno].
    + unfold bind in E.
      pose proof (sleep_grows InBackoff (backoff_delay a (upcoming w sid 0)) w1) as G2.
      destruct (sleep InBackoff (backoff_delay a (upcoming w sid 0)) w1)
        as [[[]| |] w2]; try discriminate.
      simpl in G2.
      pose proof (grows_trans _ _ _ _ _ G1 G2) as G12.
      destruct (IH w2 payload w' (grows_ready _ _ _ G12 R) E)
        as (d3 & n & G3 & Gd3 & Hcase).
      assert (U : forall k, upcoming w2 sid k = upcoming w sid (S k)).
      { intros k. apply (upcoming_next sid w w2 _ k G12).
        rewrite gets_app, Gg. reflexivity. }
      exists (((d1 ++ [EvGet (parameters_request sid)])
               ++ [EvSleep InBackoff (backoff_delay a (upcoming w sid 0))]) ++ d3),
             (S n).
      split; [eapply grows_trans; eauto|].
      split; [rewrite !gets_app, Gd3, Gd; reflexivity|].
      destruct Hcase as [(k & Hk & Hs & Hp)|(-> & -> & Hall)].
      * left. exists (S k). rewrite <- U. split; [lia|auto].
      * right. split; [reflexivity|]. split; [reflexivity|].
        intros [|k] Hk; [exact S429|]. rewrite <- U. apply Hall.
        simpl in Hk. lia.
    + injection E as E <-.
      exists (d1 ++ [EvGet (parameters_request sid)]), 1%nat.
      split; [exact G1|]. split; [exact Gg|].
      left. exists 0%nat. auto.
Qed.

Lemma nth_error_repeat {A} (x : A) n k :
  (k < n)%nat -> nth_error (repeat x n) k = Some x.
Proof.
  revert k. induction n as [|n IH]; intros [|k] Hk; simpl; try lia; auto.
  apply IH. lia.
Qed.

(** What one worker hands back is fetched for its own id. *)
Lemma fetch_site_parameters_fetched sid w :
  ready w ->
  exists delta,
    grows w (snd (fetch_site_parameters sid w)) delta /\
    tasks delta = [] /\
    forall payload,
      fst (fetch_site_parameters sid w) = Ok payload ->
      get payload "siteID" = Ok sid /\ fetched w delta sid payload.
Proof.
  intros R. unfold fetch_site_parameters.
  destruct (loop_grows sid (range 4) w) as (delta & G & T).
  exists delta. split; [exact G|]. split; [exact T|].
  intros payload E.
  destruct (fetch_site_parameters_loop sid (range 4) w) as [o w'] eqn:El.
  simpl in E, G. subst o.
  split; [eapply loop_ok_site_id; eauto|].
  destruct (loop_fetched sid (range 4) w payload w' R El)
    as (d & n & G' & Gd & Hcase).
  assert (d = delta).
  { destruct G as (_ & _ & L & _). destruct G' as (_ & _ & L' & _).
    rewrite L in L'. apply app_inv_head in L'. symmetry. exact L'. }
  subst d. unfold fetched. rewrite Gd.
  destruct Hcase as [(k & Hk & Hs & Hp)|(-> & -> & Hall)].
  - left. exists k. rewrite nth_error_repeat by exact Hk. auto.
  - right. split; [reflexivity|]. exists [0; 1; 2; 3]%nat.
    split; [repeat constructor; simpl; intuition lia|].
    split; [reflexivity|].
    repeat constructor; try (apply Hall; simpl; lia);
      apply nth_error_repeat; simpl; lia.
Qed.

(** Requests keep their place when the log is looked at from an earlier
    world. *)
Lemma fetched_shift w w1 pre d post sid payload :
  grows w w1 pre ->
  fetched w1 d sid payload ->
  fetched w (pre ++ d ++ post) sid payload.
Proof.
  intros (N & _ & _ & Sn) F.
  assert (Hn : forall k r,
            nth_error (gets d) k = Some r ->
            nth_error (gets (pre ++ d ++ post)) (List.length (gets pre) + k)
              = Some r).
  { intros k r E. rewrite !gets_app. rewrite nth_error_app2 by lia.
    replace (List.length (gets pre) + k - List.length (gets pre))%nat
      with k by lia.
    rewrite nth_error_app1; [exact E|]. apply nth_error_Some. congruence. }
  assert (Hu : forall k,
            upcoming w sid (List.length (gets pre) + k) = upcoming w1 sid k).
  { intros k. unfold upcoming. rewrite N, Sn. f_equal. lia. }
  destruct F as [(k & Hk & Hs & Hp)|(-> & ks & Hnd & Hlen & Hall)].
  - left. exists (List.length (gets pre) + k)%nat. rewrite Hu. auto.
  - right. split; [reflexivity|].
    exists (map (Nat.add (List.length (gets pre))) ks).
    split; [|split].
    + clear - Hnd. induction Hnd as [|x l Hx Hl IH]; simpl; constructor; auto.
      intros Hin. apply in_map_iff in Hin. destruct Hin as (y & Hy & Hin).
      assert (y = x) by lia. subst y. contradiction.
    + rewrite length_map. exact Hlen.
    + apply Forall_map. eapply Forall_impl; [|exact Hall].
      intros k (Hk & Hs). cbv beta. rewrite Hu. auto.
Qed.

(** Every payload of the pool is fetched for the id at its place. *)
Lemma spawn_workers_fetched site_ids : forall free w,
  ready w ->
  exists delta,
    grows w (snd (spawn_workers free site_ids w)) delta /\
    tasks delta = site_ids /\
    Forall2 (fun sid o => forall payload,
               o = Ok payload ->
               get payload "siteID" = Ok sid /\ fetched w delta sid payload)
            site_ids (fst (spawn_workers free site_ids w)).
Proof.
  induction site_ids as [|sid rest IH]; intros free w R.
  - simpl. exists []. split; [apply grows_refl|]. split; [reflexivity|constructor].
  - cbn [spawn_workers].
    set (w1 := with_log w (EvTask sid)).
    assert (G1 : grows w w1 [EvTask sid]).
    { unfold grows, w1, with_log. simpl. rewrite Nat.add_0_r. auto. }
    assert (R1 : ready w1) by (eapply grows_ready; eauto).
    assert (Hrun : exists o w2 d2,
               (if free <=? 0 then (Hang, w1) else fetch_site_parameters sid w1)
                 = (o, w2) /\
               grows w1 w2 d2 /\ tasks d2 = [] /\
               (forall payload, o = Ok payload ->
                  get payload "siteID" = Ok sid /\ fetched w1 d2 sid payload)).
    { destruct (free <=? 0).
      - exists Hang, w1, []. split; [reflexivity|]. split; [apply grows_refl|].
        split; [reflexivity|discriminate].
      - destruct (fetch_site_parameters_fetched sid w1 R1) as (d2 & G2 & T2 & F2).
        destruct (fetch_site_parameters sid w1) as [o w2]. simpl in G2, F2.
        exists o, w2, d2. split; [reflexivity|]. split; [exact G2|].
        split; [exact T2|]. intros payload ->. apply F2. reflexivity. }
    destruct Hrun as (o & w2 & d2 & E2 & G2 & T2 & Hf). rewrite E2.
    pose proof (sleep_grows InStagger (Fin (1 # 100)) w2) as G3.
    destruct (sleep InStagger (Fin (1 # 100)) w2) as [o3 w3]. simpl in G3.
    pose proof (grows_trans _ _ _ _ _ (grows_trans _ _ _ _ _ G1 G2) G3) as G123.
    assert (R3 : ready w3) by (eapply grows_ready; eauto).
    set (free' := match o with
                  | Hang => if free <=? 0 then free else free - 1
                  | _ => free
                  end).
    destruct (IH free' w3 R3) as (d4 & G4 & T4 & F4).
    destruct (spawn_workers free' rest w3) as [os w4]. simpl in *.
    exists ((([EvTask sid] ++ d2) ++ [EvSleep InStagger (Fin (1 # 100))]) ++ d4).
    split; [exact (grows_trans _ _ _ _ _ G123 G4)|].
    split; [rewrite !tasks_app, T2, T4; reflexivity|].
    constructor.
    + intros payload Ho. destruct (Hf payload Ho) as (Hid & Hfd).
      split; [exact Hid|].
      rewrite <- !app_assoc.
      apply (fetched_shift w w1 [EvTask sid] d2 _ sid payload G1 Hfd).
    + eapply Forall2_impl; [|exact F4].
      intros sid' o' Ho' payload Ho. destruct (Ho' payload Ho) as (Hid & Hfd).
      split; [exact Hid|].
      pose proof (fetched_shift w w3 _ d4 [] sid' payload G123 Hfd) as Hs.
      rewrite app_nil_r in Hs. exact Hs.
Qed.

(** C6: a call of [fetch_all_parameters] that returns does so with one
    payload per input id, in input order, one task having been created per
    id: each payload carries its id and is what the server's answers to
    requests for that id, sent during the call, make it: the settled answer
    to one of them, or the exhausted payload after four of them were
    answered 429.  With a free slot and a well-behaved server the call does
    return. *)
Theorem fetch_all_parameters_one_result_per_id site_ids concurrency w :
  ready w ->
  (forall results w',
     fetch_all_parameters site_ids concurrency w = (Ok results, w') ->
     List.length results = List.length site_ids /\
     exists delta,
       log w' = log w ++ delta /\
       tasks delta = site_ids /\
       Forall2 (fun sid payload =>
                  get payload "siteID" = Ok sid /\ fetched w delta sid payload)
               site_ids results)
  /\
  (0 < concurrency -> well_behaved (net w) ->
   exists results w',
     fetch_all_parameters site_ids concurrency w = (Ok results, w')).
Proof.
  intros R. split.
  - intros results w' E. unfold fetch_all_parameters in E.
    destruct (concurrency <? 0); [discriminate|].
    destruct (spawn_workers_fetched site_ids concurrency w R) as (d & G & T & F).
    destruct (spawn_workers concurrency site_ids w) as [os w1]. simpl in *.
    injection E as E <-. apply gather_ok in E. subst os.
    assert (F2 : Forall2 (fun sid payload =>
                            get payload "siteID" = Ok sid /\
                            fetched w d sid payload) site_ids results).
    { clear - F. revert results F.
      induction site_ids as [|sid rest IH]; intros [|r results] F;
        inversion F; subst; constructor; auto. }
    split; [symmetry; eapply Forall2_length; eauto|].
    exists d. destruct G as (_ & _ & L & _). auto.
  - intros Hc WB.
    destruct (spawn_workers_spec site_ids concurrency w R) as (_ & _ & Hok).
    unfold fetch_all_parameters.
    destruct (Z.ltb_spec concurrency 0) as [?|_]; [lia|].
    destruct (Hok Hc WB) as (results & Eo).
    destruct (spawn_workers concurrency site_ids w) as [os w1]. simpl in Eo.
    subst os. exists results, w1. rewrite gather_all_ok. reflexivity.
Qed.

End Pool.

Section Orchestrator.
Context `{PyRuntime}.

Lemma fetch_air_sites_grows w :
  exists delta,
    grows w (snd (fetch_air_sites w)) delta /\
    tasks delta = [] /\
    Forall (fun r => r = sites_request) (gets delta).
Proof.
  unfold fetch_air_sites. unfold bind at 1.
  destruct (acquire_grows w) as (d0 & G0 & L0).
  destruct (limiter_events_silent _ L0) as (Gd & _ & Td).
  destruct (acquire w) as [[[]| |] w0]; simpl in G0;
    try solve [exists d0; rewrite Gd;
               split; [exact G0|split; [exact Td|constructor]]].
  unfold bind at 1. unfold client_get at 1. cbn beta iota zeta.
  set (w1 := {| clock := clock w0; ticks := ticks w0;
                rate_limiter := rate_limiter w0; net := net w0;
                sent := S (sent w0); log := log w0 ++ [EvGet sites_request] |}).
  assert (G1 : grows w0 w1 [EvGet sites_request]).
  { unfold grows, w1. simpl. repeat split. lia. }
  exists (d0 ++ [EvGet sites_request]).
  rewrite tasks_app, gets_app, Td, Gd. simpl.
  assert (W : forall A B (o : outcome A) (k : A -> M B),
             (forall a, snd (k a w1) = w1) -> snd (bind (lift o) k w1) = w1).
  { intros A B [a|e|] k Hk; unfold bind, lift; simpl; auto. }
  rewrite W.
  - split; [eapply grows_trans; eauto|]. auto.
  - intros _. apply W. intros data. reflexivity.
Qed.

(** C8: when the listing fetch raises, [main] raises the same error with
    nothing done after it: no task was created, and the only request that
    can have gone out is the listing request. *)
Theorem listing_failure_starts_no_task w e :
  fst (fetch_air_sites w) = Raise e ->
  fst (main w) = Raise e /\
  snd (main w) = snd (fetch_air_sites w) /\
  exists delta,
    log (snd (main w)) = log w ++ delta /\
    tasks delta = [] /\
    Forall (fun r => r = sites_request) (gets delta).
Proof.
  intros E.
  assert (Hm : main w = (Raise e, snd (fetch_air_sites w))).
  { unfold main. unfold bind at 1.
    destruct (fetch_air_sites w) as [o w1]. simpl in E. subst o. reflexivity. }
  rewrite Hm. simpl. split; [reflexivity|]. split; [reflexivity|].
  destruct (fetch_air_sites_grows w) as (d & (_ & _ & L & _) & T & F).
  exists d. auto.
Qed.

Lemma select_bad_filter ps : forall b,
  select_bad ps = Ok b -> b = filter has_error ps.
Proof.
  induction ps as [|p ps IH]; simpl; intros b E.
  - injection E as <-. reflexivity.
  - unfold has_error. destruct (get p "_error") as [e| |]; try discriminate.
    simpl in E. destruct (select_bad ps) as [more| |]; try discriminate.
    simpl in E. injection E as <-. rewrite (IH more eq_refl).
    destruct (truthy e); reflexivity.
Qed.

Lemma obind_ret {A} (o : outcome (list A)) : (let? zs := o in Ok zs) = o.
Proof. destruct o; reflexivity. Qed.

(** Leaving out payloads that yield no row changes nothing. *)
Lemma for_each_skip {A B} (f : A -> outcome (list B)) keep l :
  (forall x, In x l -> keep x = false -> f x = Ok []) ->
  for_each f (filter keep l) = for_each f l.
Proof.
  induction l as [|x l IH]; intros Hskip; simpl; [reflexivity|].
  destruct (keep x) eqn:K; simpl.
  - rewrite IH; [reflexivity|]. intros y Hy. apply Hskip. right. exact Hy.
  - rewrite (Hskip x (or_introl eq_refl) K). simpl.
    rewrite IH by (intros y Hy; apply Hskip; right; exact Hy).
    apply eq_sym, obind_ret.
Qed.

(** C7, amended: [main] lists the payloads with a truthy [_error] for its
    summary only, and gives every payload of the pool to
    [parameters_to_df].  An exhausted payload is listed and carries no
    parameters, so it adds no row; whenever the listed payloads add no row,
    the frame is the one the other payloads alone would give. *)
Theorem main_flattens_every_payload w run w' :
  main w = (Ok run, w') ->
  flattened run = payloads run /\
  bad run = filter has_error (payloads run) /\
  (forall sid, has_error (exhausted_payload sid) = true /\
               payload_rows (exhausted_payload sid) = Ok []) /\
  ((forall p, In p (bad run) -> payload_rows p = Ok []) ->
   collect_rows (flattened run) = collect_rows (usable (payloads run)) /\
   parameters_to_df (flattened run) = parameters_to_df (usable (payloads run))).
Proof.
  intros E. unfold main in E. unfold bind at 1 in E.
  destruct (fetch_air_sites w) as [[records| |] w1]; try discriminate.
  unfold bind at 1 in E. unfold lift at 1 in E.
  destruct (sites_to_df records) as [sites_df| |]; try discriminate.
  unfold bind at 1 in E. unfold lift at 1 in E.
  destruct (site_id_list sites_df) as [ids| |]; try discriminate.
  unfold bind at 1 in E.
  destruct (fetch_all_parameters ids 8 w1) as [[ps| |] w2]; try discriminate.
  unfold bind at 1 in E. unfold lift at 1 in E.
  destruct (select_bad ps) as [b| |] eqn:Eb; try discriminate.
  unfold bind at 1 in E. unfold lift at 1 in E.
  destruct (report (firstn 10 b)) as [[]| |]; try discriminate.
  unfold bind at 1 in E. unfold lift at 1 in E.
  destruct (parameters_to_df ps) as [df| |]; try discriminate.
  unfold ret in E. injection E as <- _. simpl.
  pose proof (select_bad_filter ps b Eb) as Hb. subst b.
  split; [reflexivity|]. split; [reflexivity|].
  split; [intros sid; split; reflexivity|].
  intros Hrows.
  assert (C : collect_rows ps = collect_rows (usable ps)).
  { unfold collect_rows, usable. symmetry. apply for_each_skip.
    intros p Hp K. apply Hrows. apply filter_In. split; [exact Hp|].
    apply negb_false_iff. exact K. }
  split; [exact C|]. unfold parameters_to_df. rewrite C. reflexivity.
Qed.

End Orchestrator.

Section Listing.
Context `{PyRuntime}.

(** C10: on a response whose status is not 200, [fetch_sites] returns
    [None]; the one request it sent carried the X-API-Key header, and no
    second request follows. *)
Theorem fetch_sites_none_unless_200 environmental_segment w :
  let request :=
    {| url := (SiteListScript.BASE ++ "/sites")%string;
       req_headers := [("X-API-Key", API_KEY)];
       params := [("environmentalSegment", environmental_segment)] |} in
  status_code (net w (sent w) request) <> 200 ->
  exists w',
    SiteListScript.fetch_sites environmental_segment w = (Ok JNull, w') /\
    log w' = log w ++ [EvGet request] /\
    sent w' = S (sent w).
Proof.
  intros request S. unfold SiteListScript.fetch_sites, bind, client_get.
  fold request. cbn beta iota zeta.
  destruct (Z.eqb_spec (status_code (net w (sent w) request)) 200) as [?|_];
    [contradiction|].
  eexists. split; [reflexivity|]. simpl. auto.
Qed.

End Listing.

(** ** Ordering the rows *)

Section WeakOrders.
Context {A : Type}.






End WeakOrders.











(** ** Flattening well-shaped payloads *)



Lemma for_each_flat_map {A B} (f : A -> outcome (list B)) (g : A -> list B) l :
  (forall x, In x l -> f x = Ok (g x)) -> for_each f l = Ok (flat_map g l).
Proof.
  induction l as [|x l IH]; intros Hf; simpl; [reflexivity|].
  rewrite (Hf x (or_introl eq_refl)). simpl.
  rewrite IH by (intros y Hy; apply Hf; right; exact Hy). reflexivity.
Qed.


Lemma flat_map_singletons {A B} (f : A -> B) l :
  flat_map (fun x => [f x]) l = map f l.
Proof. induction l as [|x l IH]; simpl; [|rewrite IH]; reflexivity. Qed.







Lemma Forall2_map_self {A B} (P : A -> B -> Prop) (f : A -> B) l :
  (forall x, P x (f x)) -> Forall2 P l (map f l).
Proof. intros Hf. induction l; simpl; constructor; auto. Qed.





Lemma combine_converted (g : nat -> option Z) (col : list json) : forall o i v,
  nth_error col i = Some v ->
  In (v, g (o + i)%nat) (combine col (map g (seq o (List.length col)))).
Proof.
  induction col as [|x col IH]; intros o [|i] v E; simpl in *; try discriminate.
  - injection E as ->. left. rewrite Nat.add_0_r. reflexivity.
  - right. replace (o + S i)%nat with (S o + i)%nat by lia. apply IH, E.
Qed.

Section Flattening.
Context `{PyRuntime}.

Lemma frame_cell_stored name col v : stored_as col v (frame_cell name col v).
Proof.
  unfold stored_as, frame_cell.
  destruct (forallb numeric col); simpl; [|left; reflexivity].
  destruct (float64_column name col); [|left; reflexivity].
  destruct v; try (left; reflexivity).
  right. split; [reflexivity|]. eauto.
Qed.

Lemma frame_cell_hashable name col v :
  hashable (frame_cell name col v) = hashable v.
Proof.
  unfold frame_cell.
  destruct (forallb numeric col && float64_column name col); [|reflexivity].
  destruct v; reflexivity.
Qed.




(** What the coercion averts: with the errors raised, one cell that is
    there and cannot be read stops the conversion. *)
Lemma pd_to_datetime_raise col i v :
  nth_error col i = Some v ->
  is_missing v = false ->
  to_datetime col i = None ->
  pd_to_datetime errors_raise col = Raise ValueError.
Proof.
  intros E Hm Hn. unfold pd_to_datetime.
  destruct (forallb (fun c => is_missing (fst c) || is_some (snd c))
                    (combine col (map (to_datetime col)
                                      (seq 0 (List.length col))))) eqn:F;
    [|reflexivity].
  rewrite forallb_forall in F.
  specialize (F _ (combine_converted (to_datetime col) col 0 i v E)).
  simpl in F. rewrite Hm, Hn in F. discriminate.
Qed.


End Flattening.

(** ** The window between calls *)

Lemma prune_suffix now win : exists dropped, win = dropped ++ prune now win.
Proof.
  induction win as [|t win (dropped & IH)]; simpl.
  - exists []. reflexivity.
  - destruct (Qle_bool (now - t) 1).
    + exists []. reflexivity.
    + exists (t :: dropped). simpl. f_equal. exact IH.
Qed.

Lemma sorted_suffix (dropped l : list Q) :
  StronglySorted Qle (dropped ++ l) -> StronglySorted Qle l.
Proof.
  induction dropped as [|t dropped IH]; simpl; intros S; [exact S|].
  inversion S; subst. auto.
Qed.

Lemma prune_sound now win bound :
  StronglySorted Qle win -> Forall (fun t => t <= bound)%Q win ->
  StronglySorted Qle (prune now win) /\
  Forall (fun t => t <= bound)%Q (prune now win).
Proof.
  intros S F. destruct (prune_suffix now win) as (dropped & E).
  rewrite E in S, F. split; [eapply sorted_suffix; eauto|].
  apply Forall_app in F. apply F.
Qed.

Lemma Qle_bool_false x y : Qle_bool x y = false -> (y < x)%Q.
Proof.
  intros E. apply Qnot_le_lt. intros Hle.
  apply Qle_bool_iff in Hle. congruence.
Qed.

Lemma append_sound (win : list Q) t :
  StronglySorted Qle win -> Forall (fun u => u <= t)%Q win ->
  StronglySorted Qle (win ++ [t]).
Proof.
  induction win as [|u win IH]; simpl; intros S F.
  - constructor; constructor.
  - inversion S as [|? ? Sw Fu]; subst. inversion F as [|? ? Hu Fw]; subst.
    constructor; [apply IH; assumption|].
    apply Forall_app. split; [exact Fu|]. constructor; [exact Hu|constructor].
Qed.

Lemma Forall_le_weaken (win : list Q) a b :
  (a <= b)%Q -> Forall (fun t => t <= a)%Q win -> Forall (fun t => t <= b)%Q win.
Proof.
  intros Hab F. eapply Forall_impl; [|exact F]. intros t Ht. simpl in Ht. lra.
Qed.

Lemma reading_late (clk : Q) (tk : list Q) :
  Forall (fun d => 0 <= d)%Q tk ->
  (clk <= match tk with [] => clk | d :: _ => clk + d end)%Q /\
  Forall (fun d => 0 <= d)%Q (tl tk).
Proof.
  intros F. destruct tk as [|d tk]; simpl.
  - split; [lra|constructor].
  - inversion F; subst. split; [lra|assumption].
Qed.

Section Window.
Context `{PyRuntime}.

(** The order of the window is kept from call to call: when the window is
    oldest-first with no entry later than the clock, and the clock never
    runs backwards, [acquire] returns and leaves a window that is again
    oldest-first with no entry later than the clock. *)
Theorem acquire_keeps_window_in_order w :
  ready w -> window_sound w -> monotone w ->
  fst (acquire w) = Ok tt /\
  window_sound (snd (acquire w)) /\
  monotone (snd (acquire w)).
Proof.
  intros R (S & F) Mo. split; [apply acquire_returns; exact R|].
  unfold window_sound, monotone in *.
  unfold acquire, bind, loop_time, get_win, set_win, get_max_per_sec, emit,
    ret, raise, sleep, with_log, advance; simpl.
  destruct (reading_late (clock w) (ticks w) Mo) as (L1 & M1).
  set (now1 := match ticks w with [] => clock w | d :: _ => (clock w + d)%Q end) in *.
  set (win := _win (rate_limiter w)) in *.
  destruct (prune_sound now1 win (clock w) S F) as (S1 & F1).
  destruct (Z.of_nat (List.length (prune now1 win)) >=? max_per_sec (rate_limiter w));
    simpl.
  - destruct (prune now1 win) as [|oldest rest] eqn:Ep; simpl.
    + repeat split; try constructor; try assumption.
    + destruct (Qle_bool (1 - (now1 - oldest)) 0) eqn:Es; simpl.
      * destruct (reading_late now1 (tl (ticks w)) M1) as (L2 & M2).
        set (now2 := match tl (ticks w) with
                     | [] => now1 | d :: _ => (now1 + d)%Q end) in *.
        destruct (reading_late now2 (tl (tl (ticks w))) M2) as (L3 & M3).
        set (t3 := match tl (tl (ticks w)) with
                   | [] => now2 | d :: _ => (now2 + d)%Q end) in *.
        destruct (prune_sound now2 (oldest :: rest) (clock w) S1 F1) as (S2 & F2).
        assert (F3 : Forall (fun u => u <= t3)%Q (prune now2 (oldest :: rest)))
          by (eapply Forall_le_weaken; [|exact F2]; lra).
        split; [split|].
        -- apply append_sound; assumption.
        -- apply Forall_app. split; [exact F3|].
           constructor; [lra|constructor].
        -- exact M3.
      * rewrite ?Es. simpl. apply Qle_bool_false in Es.
        set (woke := (now1 + (1 - (now1 - oldest)))%Q).
        destruct (reading_late woke (tl (ticks w)) M1) as (L2 & M2).
        set (now2 := match tl (ticks w) with
                     | [] => woke | d :: _ => (woke + d)%Q end) in *.
        destruct (reading_late now2 (tl (tl (ticks w))) M2) as (L3 & M3).
        set (t3 := match tl (tl (ticks w)) with
                   | [] => now2 | d :: _ => (now2 + d)%Q end) in *.
        destruct (prune_sound now2 (oldest :: rest) (clock w) S1 F1) as (S2 & F2).
        assert (Hw : (now1 <= woke)%Q) by (unfold woke; lra).
        assert (F3 : Forall (fun u => u <= t3)%Q (prune now2 (oldest :: rest)))
          by (eapply Forall_le_weaken; [|exact F2]; lra).
        split; [split|].
        -- apply append_sound; assumption.
        -- apply Forall_app. split; [exact F3|].
           constructor; [lra|constructor].
        -- exact M3.
  - destruct (reading_late now1 (tl (ticks w)) M1) as (L2 & M2).
    set (t3 := match tl (ticks w) with
               | [] => now1 | d :: _ => (now1 + d)%Q end) in *.
    assert (F3 : Forall (fun u => u <= t3)%Q (prune now1 win))
      by (eapply Forall_le_weaken; [|exact F1]; lra).
    split; [split|].
    + apply append_sound; assumption.
    + apply Forall_app. split; [exact F3|]. constructor; [lra|constructor].
    + exact M2.
Qed.

(** A limiter built with a cap of zero or less cannot admit anything: on an
    empty window [self._win[0]] raises. *)
Theorem acquire_needs_positive_cap w :
  max_per_sec (rate_limiter w) <= 0 -> _win (rate_limiter w) = [] ->
  fst (acquire w) = Raise IndexError.
Proof.
  intros Hk Hw.
  unfold acquire, bind, loop_time, get_win, set_win, get_max_per_sec, emit,
    ret, raise; simpl.
  rewrite Hw. simpl.
  destruct (Z.geb_spec 0 (max_per_sec (rate_limiter w))) as [_|?]; [|lia].
  reflexivity.
Qed.

End Window.

(** ** The limiter at the one-second boundary *)

(** C3: with [max_per_sec = 1], an [acquire] made when the clock reads
    exactly one second after the only entry keeps that entry (its age is not
    above 1.0), computes a sleep of zero, and appends: the window holds two
    timestamps, and a third call at the same reading makes it three.  The
    same happens when the sleep ends exactly one second after the oldest
    entry.  The entries kept are all within one second of the last prune. *)
Theorem acquire_overfills_window `{PyRuntime} :
  (let w := snd ((acquire ;; acquire) world_frozen) in
   fst ((acquire ;; acquire) world_frozen) = Ok tt /\
   max_per_sec (rate_limiter w) = 1 /\
   _win (rate_limiter w) = [0; 1]%Q) /\
  (let w := snd ((acquire ;; acquire ;; acquire) world_frozen) in
   fst ((acquire ;; acquire ;; acquire) world_frozen) = Ok tt /\
   max_per_sec (rate_limiter w) = 1 /\
   _win (rate_limiter w) = [0; 1; 1]%Q) /\
  (let w := snd ((acquire ;; acquire) world_half) in
   fst ((acquire ;; acquire) world_half) = Ok tt /\
   (clock w == 1)%Q /\
   List.length (_win (rate_limiter w)) = 2%nat /\
   Forall (fun t => (clock w - t <= 1)%Q) (_win (rate_limiter w))).
Proof.
  split; [|split].
  - vm_compute. auto.
  - vm_compute. auto.
  - cbv zeta. split; [vm_compute; reflexivity|].
    split; [vm_compute; reflexivity|].
    split; [vm_compute; reflexivity|].
    vm_compute. repeat constructor; discriminate.
Qed.

(** ** The attempt budget *)

Lemma gated_app l1 : forall fresh l2,
  gated fresh (l1 ++ l2) = gated fresh l1 && gated (gate_after fresh l1) l2.
Proof.
  induction l1 as [|e l1 IH]; intros fresh l2; simpl; [reflexivity|].
  destruct e; simpl; rewrite IH; try reflexivity.
  rewrite andb_assoc. reflexivity.
Qed.

Lemma gate_after_app fresh l1 l2 :
  gate_after fresh (l1 ++ l2) = gate_after (gate_after fresh l1) l2.
Proof. unfold gate_after. apply fold_left_app. Qed.

Lemma gated_silent l : forall fresh, gets l = [] -> gated fresh l = true.
Proof.
  induction l as [|e l IH]; intros fresh G; simpl; [reflexivity|].
  destruct e; simpl in *; try discriminate; apply IH; exact G.
Qed.

Section Budget.
Context `{PyRuntime}.

(** A call of [acquire] that returns has logged its admission last; one
    that does not return has raised, and logged nothing. *)
Lemma acquire_admits w :
  (fst (acquire w) = Ok tt /\
   exists pre t,
     log (snd (acquire w)) = log w ++ pre ++ [EvAdmit t] /\
     forallb limiter_event pre = true /\
     t = clock (snd (acquire w)) /\
     _win (rate_limiter (snd (acquire w))) <> [] /\
     last (_win (rate_limiter (snd (acquire w)))) t = t) \/
  (fst (acquire w) = Raise IndexError /\ log (snd (acquire w)) = log w).
Proof.
  unfold acquire, bind, loop_time, get_win, set_win, get_max_per_sec, emit,
    ret, raise, sleep, with_log, advance; simpl.
  set (now := match ticks w with [] => clock w | d :: _ => (clock w + d)%Q end).
  assert (Hlast : forall (l : list Q) t, l ++ [t] <> [] /\ last (l ++ [t]) t = t).
  { intros l t. split; [destruct l; discriminate|apply last_last]. }
  destruct (Z.of_nat (List.length (prune now (_win (rate_limiter w))))
            >=? max_per_sec (rate_limiter w)); simpl.
  - destruct (prune now (_win (rate_limiter w))) as [|oldest rest]; simpl.
    + right. auto.
    + left. destruct (Qle_bool (1 - (now - oldest)) 0) eqn:Es; simpl.
      * split; [reflexivity|]. eexists [], _. simpl.
        split; [reflexivity|]. split; [reflexivity|]. split; [reflexivity|].
        apply Hlast.
      * rewrite ?Es. simpl. split; [reflexivity|].
        eexists [_], _. simpl. rewrite <- app_assoc. simpl.
        split; [reflexivity|]. split; [reflexivity|]. split; [reflexivity|].
        apply Hlast.
  - left. split; [reflexivity|]. eexists [], _. simpl.
    split; [reflexivity|]. split; [reflexivity|]. split; [reflexivity|].
    apply Hlast.
Qed.

Lemma within_budget_more sid n m w w' :
  (n <= m)%nat -> within_budget sid n w w' -> within_budget sid m w w'.
Proof.
  intros Hnm (d & G & T & L & F & Ga). exists d. repeat split; auto; try apply G. lia.
Qed.

(** Whatever the server answers and however the call ends, it has sent at
    most one request per attempt, each for its own site and each right
    after the limiter admitted it. *)
Lemma loop_within_budget sid attempts : forall w,
  within_budget sid (List.length attempts) w
    (snd (fetch_site_parameters_loop sid attempts w)).
Proof.
  induction attempts as [|a rest IH]; intros w.
  - exists []. simpl. split; [apply grows_refl|]. auto.
  - cbn [fetch_site_parameters_loop]. unfold bind at 1.
    destruct (acquire_grows w) as (d0 & G0 & L0).
    destruct (limiter_events_silent _ L0) as (Gd0 & _ & Td0).
    destruct (acquire_admits w) as [(Eok & pre & t & Elog & _)|(Eraise & _)].
    + destruct (acquire w) as [o w0]. simpl in *. subst o.
      assert (Ed0 : d0 = pre ++ [EvAdmit t]).
      { destruct G0 as (_ & _ & Lg & _). rewrite Lg in Elog.
        apply app_inv_head in Elog. exact Elog. }
      assert (Gate0 : gate_after false d0 = true).
      { rewrite Ed0, gate_after_app. reflexivity. }
      unfold bind at 1. unfold client_get at 1. cbn beta iota zeta.
      set (req := parameters_request sid).
      set (w1 := {| clock := clock w0; ticks := ticks w0;
                    rate_limiter := rate_limiter w0; net := net w0;
                    sent := S (sent w0); log := log w0 ++ [EvGet req] |}).
      assert (G1 : grows w w1 (d0 ++ [EvGet req])).
      { eapply grows_trans; [exact G0|].
        unfold grows, w1. simpl. repeat split. lia. }
      assert (P1 : within_budget sid 1 w w1).
      { exists (d0 ++ [EvGet req]). split; [exact G1|].
        rewrite tasks_app, gets_app, Td0, Gd0, gated_app, Gate0.
        rewrite (gated_silent d0 false Gd0). simpl.
        repeat split; auto. }
      set (resp := net w0 (sent w0) req).
      destruct (status_code resp =? 429).
      * unfold bind.
        pose proof (sleep_grows InBackoff (backoff_delay a resp) w1) as G2.
        set (ev := EvSleep InBackoff (backoff_delay a resp)) in *.
        assert (P2 : within_budget sid 1 w
                       (snd (sleep InBackoff (backoff_delay a resp) w1))).
        { exists ((d0 ++ [EvGet req]) ++ [ev]).
          split; [eapply grows_trans; eauto|].
          rewrite !tasks_app, !gets_app, Td0, Gd0, !gated_app, Gate0.
          rewrite (gated_silent d0 false Gd0). simpl.
          repeat split; auto. }
        destruct (sleep InBackoff (backoff_delay a resp) w1) as [[[]| |] w2];
          simpl in G2, P2;
          try (eapply within_budget_more; [|exact P2]; simpl; lia).
        destruct (IH w2) as (d3 & G3 & T3 & L3 & F3 & Ga3).
        exists (((d0 ++ [EvGet req]) ++ [ev]) ++ d3).
        split; [eapply grows_trans; [eapply grows_trans; eauto|exact G3]|].
        rewrite !tasks_app, !gets_app, Td0, Gd0, T3, !gated_app.
        rewrite !gate_after_app, Gate0, (gated_silent d0 false Gd0).
        unfold ev. simpl. rewrite Ga3.
        repeat split; auto. lia.
      * assert (Hend : forall o : outcome json,
                  within_budget sid (S (List.length rest)) w (snd (o, w1))).
        { intros o. eapply within_budget_more; [|exact P1]. lia. }
        destruct (status_code resp =? 404); [apply (Hend Hang)|].
        unfold bind, lift.
        destruct (raise_for_status resp); try apply (Hend Hang).
        destruct (resp_json resp); apply (Hend Hang).
    + destruct (acquire w) as [o w0]. simpl in *. subst o.
      exists d0. split; [exact G0|]. rewrite Td0, Gd0.
      rewrite (gated_silent d0 false Gd0). simpl. repeat split; auto. lia.
Qed.

(** However it ends, [fetch_site_parameters] sends at most four requests,
    all to the parameters route of its own site, and each of them right
    after [rate_limiter.acquire()] admitted it. *)
Theorem fetch_site_parameters_within_budget sid w :
  exists delta,
    log (snd (fetch_site_parameters sid w)) = log w ++ delta /\
    sent (snd (fetch_site_parameters sid w)) =
      (sent w + List.length (gets delta))%nat /\
    (List.length (gets delta) <= 4)%nat /\
    Forall (eq (parameters_request sid)) (gets delta) /\
    gated false delta = true.
Proof.
  destruct (loop_within_budget sid (range 4) w)
    as (d & (_ & _ & L & Sn) & _ & Len & F & Ga).
  exists d. unfold fetch_site_parameters. auto.
Qed.

Lemma spawn_workers_budget site_ids : forall free w,
  exists delta,
    grows w (snd (spawn_workers free site_ids w)) delta /\
    (List.length (gets delta) <= 4 * List.length site_ids)%nat /\
    gated false delta = true.
Proof.
  induction site_ids as [|sid rest IH]; intros free w.
  - exists []. split; [apply grows_refl|]. auto.
  - cbn [spawn_workers].
    set (w1 := with_log w (EvTask sid)).
    assert (G1 : grows w w1 [EvTask sid]).
    { unfold grows, w1, with_log. simpl. rewrite Nat.add_0_r. auto. }
    assert (Hrun : exists o w2 d2,
               (if free <=? 0 then (Hang, w1) else fetch_site_parameters sid w1)
                 = (o, w2) /\
               grows w1 w2 d2 /\ (List.length (gets d2) <= 4)%nat /\
               gated false d2 = true).
    { destruct (free <=? 0).
      - exists Hang, w1, []. split; [reflexivity|]. split; [apply grows_refl|].
        simpl. split; [lia|reflexivity].
      - destruct (loop_within_budget sid (range 4) w1) as (d2 & G2 & _ & L2 & _ & Ga2).
        fold (fetch_site_parameters sid) in G2.
        destruct (fetch_site_parameters sid w1) as [o w2]. simpl in G2.
        exists o, w2, d2. auto. }
    destruct Hrun as (o & w2 & d2 & E2 & G2 & L2 & Ga2). rewrite E2.
    pose proof (sleep_grows InStagger (Fin (1 # 100)) w2) as G3.
    destruct (sleep InStagger (Fin (1 # 100)) w2) as [o3 w3]. simpl in G3.
    set (free' := match o with
                  | Hang => if free <=? 0 then free else free - 1
                  | _ => free
                  end).
    destruct (IH free' w3) as (d4 & G4 & L4 & Ga4).
    destruct (spawn_workers free' rest w3) as [os w4]. simpl in *.
    exists ((([EvTask sid] ++ d2) ++ [EvSleep InStagger (Fin (1 # 100))]) ++ d4).
    split; [exact (grows_trans _ _ _ _ _
                     (grows_trans _ _ _ _ _ (grows_trans _ _ _ _ _ G1 G2) G3) G4)|].
    rewrite !gets_app, !length_app, !gated_app. simpl.
    rewrite Ga2, !gate_after_app. simpl. rewrite Ga4, Nat.add_0_r.
    split; [lia|reflexivity].
Qed.

(** The pool sends at most four requests per site id, each of them right
    after an admission by the limiter. *)
Theorem fetch_all_parameters_request_budget site_ids concurrency w :
  exists delta,
    log (snd (fetch_all_parameters site_ids concurrency w)) = log w ++ delta /\
    sent (snd (fetch_all_parameters site_ids concurrency w)) =
      (sent w + List.length (gets delta))%nat /\
    (List.length (gets delta) <= 4 * List.length site_ids)%nat /\
    gated false delta = true.
Proof.
  unfold fetch_all_parameters. destruct (concurrency <? 0).
  - exists []. simpl. rewrite app_nil_r, Nat.add_0_r.
    repeat split; auto. lia.
  - destruct (spawn_workers_budget site_ids concurrency w)
      as (d & (_ & _ & L & Sn) & Len & Ga).
    destruct (spawn_workers concurrency site_ids w) as [os w']. simpl in *.
    exists d. auto.
Qed.

End Budget.

(** ** What one [acquire] does to the window *)

(** What a prune evicts is older than one second at the reading it used. *)
Lemma prune_evicts now win :
  exists dropped,
    win = dropped ++ prune now win /\
    Forall (fun u => 1 < now - u)%Q dropped.
Proof.
  induction win as [|t win (dropped & E & F)]; simpl.
  - exists []. split; [reflexivity|constructor].
  - destruct (Qle_bool (now - t) 1) eqn:Et.
    + exists []. split; [reflexivity|constructor].
    + exists (t :: dropped). split; [simpl; f_equal; exact E|].
      constructor; [apply Qle_bool_false; exact Et|exact F].
Qed.

Lemma evicted_later (dropped : list Q) a b :
  (a <= b)%Q -> Forall (fun u => 1 < a - u)%Q dropped ->
  Forall (fun u => 1 < b - u)%Q dropped.
Proof.
  intros Hab F. eapply Forall_impl; [|exact F]. intros u Hu. simpl in Hu. lra.
Qed.

Section WindowEffect.
Context `{PyRuntime}.

(** With a clock that never runs backwards, [acquire] evicts only entries
    older than one second, keeps the others in order, and appends the
    reading at which it returns: the window after the call is a suffix of
    the window before it followed by that one reading. *)
Theorem acquire_evicts_only_stale_entries w :
  ready w -> monotone w ->
  exists dropped kept,
    _win (rate_limiter w) = dropped ++ kept /\
    _win (rate_limiter (snd (acquire w))) = kept ++ [clock (snd (acquire w))] /\
    Forall (fun u => 1 < clock (snd (acquire w)) - u)%Q dropped.
Proof.
  intros R Mo. unfold ready, monotone in *.
  unfold acquire, bind, loop_time, get_win, set_win, get_max_per_sec, emit,
    ret, raise, sleep, with_log, advance; simpl.
  destruct (reading_late (clock w) (ticks w) Mo) as (L1 & M1).
  set (now1 := match ticks w with [] => clock w | d :: _ => (clock w + d)%Q end) in *.
  set (win := _win (rate_limiter w)) in *.
  destruct (prune_evicts now1 win) as (dr1 & E1 & F1).
  destruct (Z.geb_spec (Z.of_nat (List.length (prune now1 win)))
                       (max_per_sec (rate_limiter w))) as [Hfull|Hroom]; simpl.
  - destruct (prune now1 win) as [|oldest rest] eqn:Ep; simpl.
    + simpl in Hfull. lia.
    + destruct (Qle_bool (1 - (now1 - oldest)) 0) eqn:Es; simpl.
      * destruct (reading_late now1 (tl (ticks w)) M1) as (L2 & M2).
        set (now2 := match tl (ticks w) with
                     | [] => now1 | d :: _ => (now1 + d)%Q end) in *.
        destruct (reading_late now2 (tl (tl (ticks w))) M2) as (L3 & _).
        set (t3 := match tl (tl (ticks w)) with
                   | [] => now2 | d :: _ => (now2 + d)%Q end) in *.
        destruct (prune_evicts now2 (oldest :: rest)) as (dr2 & E2 & F2).
        exists (dr1 ++ dr2), (prune now2 (oldest :: rest)).
        split; [rewrite <- app_assoc, <- E2; exact E1|].
        split; [reflexivity|].
        apply Forall_app. split.
        -- eapply evicted_later; [|exact F1]. lra.
        -- eapply evicted_later; [|exact F2]. lra.
      * rewrite ?Es. simpl. apply Qle_bool_false in Es.
        set (woke := (now1 + (1 - (now1 - oldest)))%Q).
        destruct (reading_late woke (tl (ticks w)) M1) as (L2 & M2).
        set (now2 := match tl (ticks w) with
                     | [] => woke | d :: _ => (woke + d)%Q end) in *.
        destruct (reading_late now2 (tl (tl (ticks w))) M2) as (L3 & _).
        set (t3 := match tl (tl (ticks w)) with
                   | [] => now2 | d :: _ => (now2 + d)%Q end) in *.
        destruct (prune_evicts now2 (oldest :: rest)) as (dr2 & E2 & F2).
        exists (dr1 ++ dr2), (prune now2 (oldest :: rest)).
        split; [rewrite <- app_assoc, <- E2; exact E1|].
        split; [reflexivity|].
        assert (Hw : (now1 <= woke)%Q) by (unfold woke; lra).
        apply Forall_app. split.
        -- eapply evicted_later; [|exact F1]. lra.
        -- eapply evicted_later; [|exact F2]. lra.
  - destruct (reading_late now1 (tl (ticks w)) M1) as (L2 & _).
    set (t3 := match tl (ticks w) with
               | [] => now1 | d :: _ => (now1 + d)%Q end) in *.
    exists dr1, (prune now1 win). split; [exact E1|]. split; [reflexivity|].
    eapply evicted_later; [|exact F1]. lra.
Qed.

(** The limiter never makes a caller sleep more than one second, and sleeps
    at most once per call: on a window with no entry from the future, the
    sleep it asks for is positive and at most 1. *)
Theorem acquire_sleeps_at_most_one_second w :
  ready w -> window_sound w -> monotone w ->
  exists delta,
    log (snd (acquire w)) = log w ++ delta /\
    (List.length (limiter_sleeps delta) <= 1)%nat /\
    Forall (fun d => exists q, d = Fin q /\ (0 < q)%Q /\ (q <= 1)%Q)
           (limiter_sleeps delta).
Proof.
  intros R (S & F) Mo. unfold ready, monotone in *.
  unfold acquire, bind, loop_time, get_win, set_win, get_max_per_sec, emit,
    ret, raise, sleep, with_log, advance; simpl.
  destruct (reading_late (clock w) (ticks w) Mo) as (L1 & _).
  set (now1 := match ticks w with [] => clock w | d :: _ => (clock w + d)%Q end) in *.
  set (win := _win (rate_limiter w)) in *.
  destruct (prune_sound now1 win (clock w) S F) as (_ & F1).
  destruct (Z.of_nat (List.length (prune now1 win)) >=? max_per_sec (rate_limiter w));
    simpl.
  - destruct (prune now1 win) as [|oldest rest] eqn:Ep; simpl.
    + exists []. rewrite app_nil_r. simpl. auto.
    + assert (Hold : (oldest <= clock w)%Q) by (inversion F1; assumption).
      destruct (Qle_bool (1 - (now1 - oldest)) 0) eqn:Es; simpl.
      * eexists [_]. split; [reflexivity|]. simpl. auto.
      * rewrite ?Es. simpl. apply Qle_bool_false in Es.
        eexists [_; _]. rewrite <- app_assoc. split; [reflexivity|]. simpl.
        split; [lia|]. constructor; [|constructor].
        eexists. split; [reflexivity|]. split; lra.
  - eexists [_]. split; [reflexivity|]. simpl. auto.
Qed.

End WindowEffect.

(** ** Other answers to a parameters request *)

Lemma dict_get_set_other d k v k' :
  k' <> k -> dict_get (dict_set d k v) k' = dict_get d k'.
Proof.
  intros Hk. induction d as [|[k0 v0] d IH]; simpl.
  - destruct (String.eqb_spec k k'); [congruence|reflexivity].
  - destruct (String.eqb_spec k0 k) as [->|Hne]; simpl.
    + destruct (String.eqb_spec k k'); [congruence|reflexivity].
    + destruct (String.eqb k0 k'); [reflexivity|exact IH].
Qed.

Lemma success_not_retry code :
  success_status code = true -> (code =? 429) = false /\ (code =? 404) = false.
Proof.
  unfold success_status. intros Hs. apply andb_true_iff in Hs.
  destruct Hs as (Hlo & Hhi). apply Z.leb_le in Hlo. apply Z.leb_le in Hhi.
  split; apply Z.eqb_neq; lia.
Qed.

Section Answers.
Context `{PyRuntime}.


(** A 2xx answer with a JSON object is returned as that object: every
    entry the server sent is kept, except that [siteID] is set to the id
    asked for, whatever the server put there. *)
Theorem success_payload_keeps_server_entries sid w d :
  ready w ->
  success_status (status_code (upcoming w sid 0)) = true ->
  body (upcoming w sid 0) = Some (JObj d) ->
  exists payload w',
    fetch_site_parameters sid w = (Ok payload, w') /\
    get payload "siteID" = Ok sid /\
    (forall k, k <> "siteID" -> get payload k = get (JObj d) k) /\
    sent w' = S (sent w).
Proof.
  intros R S2xx B.
  destruct (success_not_retry _ S2xx) as (N429 & N404).
  destruct (attempt_settles sid 0 [1; 2; 3] w R)
    as (w1 & d1 & E1 & _ & (_ & _ & _ & Sn) & Gd1 & _).
  { apply Z.eqb_neq. exact N429. }
  exists (JObj (dict_set d "siteID" sid)), w1.
  unfold fetch_site_parameters. change (range 4) with [0; 1; 2; 3].
  rewrite E1. unfold settle, raise_for_status, resp_json.
  unfold success_status in S2xx. rewrite N404, S2xx, B. simpl.
  split; [reflexivity|]. split; [apply get_after_set|].
  split.
  - intros k Hk. unfold get, get_default.
    rewrite dict_get_set_other by exact Hk. reflexivity.
  - rewrite Sn, Gd1. simpl. lia.
Qed.

(** A 2xx answer that is not a JSON object makes the call raise: a body
    that does not parse raises [JSONDecodeError], and a parsed value that is
    not a dict raises [TypeError] at [data["siteID"] = site_id]. *)
Theorem success_without_object_raises sid w :
  ready w ->
  success_status (status_code (upcoming w sid 0)) = true ->
  (body (upcoming w sid 0) = None ->
   fst (fetch_site_parameters sid w) = Raise JSONDecodeError) /\
  (forall v, body (upcoming w sid 0) = Some v -> is_dict v = false ->
             fst (fetch_site_parameters sid w) = Raise TypeError).
Proof.
  intros R S2xx.
  destruct (success_not_retry _ S2xx) as (N429 & N404).
  destruct (attempt_settles sid 0 [1; 2; 3] w R) as (w1 & d1 & E1 & _).
  { apply Z.eqb_neq. exact N429. }
  unfold fetch_site_parameters. change (range 4) with [0; 1; 2; 3].
  rewrite E1. unfold settle, raise_for_status, resp_json.
  unfold success_status in S2xx. rewrite N404, S2xx. simpl.
  split.
  - intros ->. reflexivity.
  - intros v -> Hv. destruct v; try discriminate; reflexivity.
Qed.

(** The listing is fetched once and never retried: on any status outside
    2xx, a 429 or a 404 included, [fetch_air_sites] raises
    [HTTPStatusError] after its single request. *)
Theorem fetch_air_sites_raises_without_retry w :
  ready w ->
  success_status (status_code (net w (sent w) sites_request)) = false ->
  exists w' delta,
    fetch_air_sites w =
      (Raise (HTTPStatusError (status_code (net w (sent w) sites_request))), w') /\
    log w' = log w ++ delta /\
    gets delta = [sites_request] /\
    backoffs delta = [] /\
    sent w' = S (sent w).
Proof.
  intros R Sbad. unfold fetch_air_sites. unfold bind at 1.
  destruct (acquire_grows w) as (d0 & (N & _ & L & Sn) & L0).
  destruct (limiter_events_silent _ L0) as (Gd & Bd & _).
  pose proof (acquire_returns w R) as A.
  destruct (acquire w) as [o w0]. simpl in *. subst o.
  rewrite Gd in Sn. simpl in Sn. rewrite Nat.add_0_r in Sn.
  unfold bind at 1. unfold client_get at 1. cbn beta iota zeta.
  rewrite N, Sn. unfold bind, lift, raise_for_status.
  unfold success_status in Sbad. rewrite Sbad.
  eexists _, (d0 ++ [EvGet sites_request]). split; [reflexivity|]. simpl.
  rewrite L, <- app_assoc, gets_app, backoffs_app, Gd, Bd. auto.
Qed.

End Answers.

(** ** The listing's records and ids *)

Lemma site_row_shaped rec :
  record_shape rec = true -> site_row rec = Ok [site_row_of rec].
Proof.
  destruct rec as [| | | | |d]; try discriminate.
  unfold record_shape, site_row, site_row_of, coordinates_of. simpl.
  destruct (dict_get d "geometry") as [[| | | | |g]|]; try discriminate; simpl.
  - destruct (dict_get g "coordinates") as [c|]; simpl; [|intros _; reflexivity].
    intros Hc. apply orb_true_iff in Hc. destruct Hc as [Hc|Hc].
    + apply negb_true_iff in Hc. unfold py_or. rewrite Hc. simpl.
      destruct c; try reflexivity. destruct items0; [reflexivity|discriminate].
    + destruct c; try discriminate.
      destruct items0 as [|a [|b l]]; reflexivity.
  - intros _. reflexivity.
Qed.

Lemma for_each_stops {A B} (f : A -> outcome (list B)) before x after e :
  (forall y, In y before -> returned (f y) = true) ->
  f x = Raise e ->
  for_each f (before ++ x :: after) = Raise e.
Proof.
  induction before as [|y before IH]; intros Hok Hx; simpl.
  - rewrite Hx. reflexivity.
  - pose proof (Hok y (or_introl eq_refl)) as Hy.
    destruct (f y); try discriminate. simpl.
    rewrite IH; [reflexivity| |exact Hx].
    intros z Hz. apply Hok. right. exact Hz.
Qed.

Section Records.
Context `{PyRuntime}.

Lemma sites_frame_stored rows : Forall2 (site_stored rows) rows (sites_frame rows).
Proof.
  unfold sites_frame. apply Forall2_map_self. intros r.
  unfold site_stored. simpl. repeat split; apply frame_cell_stored.
Qed.

(** [sites_to_df] gives one row per record, in order: the three names of
    the record ([None] where missing) and its first two coordinates as [lon]
    and [lat], [None] where the geometry, the coordinates or one of the two
    numbers is missing, further coordinates being dropped.  Each cell holds
    that value as [pd.DataFrame] stores it: unchanged, or rounded to the
    nearest double when its column holds only numbers and missing values. *)
Theorem sites_to_df_one_row_per_record recs :
  forallb record_shape recs = true ->
  exists df,
    sites_to_df (JArr recs) = Ok df /\
    Forall2 (site_stored (map site_row_of recs)) (map site_row_of recs) df.
Proof.
  intros Hall. unfold sites_to_df. simpl.
  assert (E : for_each site_row recs = Ok (map site_row_of recs)).
  { rewrite <- flat_map_singletons. apply for_each_flat_map.
    intros rec Hin. rewrite forallb_forall in Hall.
    apply site_row_shaped, Hall, Hin. }
  rewrite E. simpl. eexists. split; [reflexivity|]. apply sites_frame_stored.
Qed.

(** A record whose [geometry] entry is there but is not a dict ([null]
    included: the default [{}] only replaces a missing key) makes
    [sites_to_df] raise [AttributeError]. *)
Theorem sites_to_df_rejects_geometry_that_is_no_dict before d g after :
  forallb record_shape before = true ->
  dict_get d "geometry" = Some g ->
  is_dict g = false ->
  sites_to_df (JArr (before ++ JObj d :: after)) = Raise AttributeError.
Proof.
  intros Hall Hg Hnd. unfold sites_to_df. simpl.
  rewrite (for_each_stops site_row before (JObj d) after AttributeError);
    [reflexivity| |].
  - intros y Hy. rewrite forallb_forall in Hall.
    rewrite (site_row_shaped y (Hall y Hy)). reflexivity.
  - unfold site_row. simpl. rewrite Hg. destruct g; try discriminate; reflexivity.
Qed.

End Records.

Lemma py_eq_refl v : hashable v = true -> v <> JNull -> py_eq v v = true.
Proof.
  destruct v; simpl; intros Hh Hn; try discriminate; try contradiction.
  - apply Qeq_bool_iff. reflexivity.
  - apply Qeq_bool_iff. reflexivity.
  - apply String.eqb_refl.
Qed.

Lemma py_eq_number a b :
  py_eq a b = true ->
  (exists x y, a = JStr x /\ b = JStr y /\ x = y) \/
  (exists x y, as_number a = Some x /\ as_number b = Some y /\ (x == y)%Q).
Proof.
  destruct a, b; simpl; try discriminate; intros E;
    try (right; eexists _, _; split; [reflexivity|]; split; [reflexivity|];
         apply Qeq_bool_iff; exact E).
  left. apply String.eqb_eq in E. eauto.
Qed.

Lemma py_eq_trans a b c :
  py_eq a b = true -> py_eq b c = true -> py_eq a c = true.
Proof.
  intros Hab Hbc.
  pose proof (py_eq_number a b Hab) as H1.
  pose proof (py_eq_number b c Hbc) as H2.
  destruct H1 as [(x & y & Ea & Eb & Exy)|(x & y & Ea & Eb & Exy)];
    destruct H2 as [(x' & z & Eb' & Ec & Eyz)|(y' & z & Eb' & Ec & Eyz)].
  - subst. injection Eb' as ->. simpl. apply String.eqb_refl.
  - subst. simpl in Eb'. discriminate.
  - subst. simpl in Eb. discriminate.
  - rewrite Eb in Eb'. injection Eb' as <-.
    assert (Exz : (x == z)%Q) by (rewrite Exy; exact Eyz).
    destruct a; simpl in Ea; try discriminate;
      destruct c; simpl in Ec; try discriminate;
      injection Ea as <-; injection Ec as <-; simpl;
      apply Qeq_bool_iff; exact Exz.
Qed.

Lemma first_occurrences_incl col v : In v (first_occurrences col) -> In v col.
Proof.
  induction col as [|x col IH]; simpl; [auto|].
  intros [->|Hin]; [left; reflexivity|].
  apply filter_In in Hin. right. apply IH, Hin.
Qed.

Lemma distinct_filter (keep : json -> bool) l :
  ForallOrdPairs (fun a b => py_eq a b = false) l ->
  ForallOrdPairs (fun a b => py_eq a b = false) (filter keep l).
Proof.
  induction 1 as [|a l Ha Hl IH]; simpl; [constructor|].
  destruct (keep a); [|exact IH].
  constructor; [|exact IH].
  apply Forall_forall. intros b Hb. apply filter_In in Hb.
  rewrite Forall_forall in Ha. apply Ha, Hb.
Qed.

Lemma first_occurrences_distinct col :
  ForallOrdPairs (fun a b => py_eq a b = false) (first_occurrences col).
Proof.
  induction col as [|x col IH]; simpl; constructor.
  - apply Forall_forall. intros b Hb. apply filter_In in Hb.
    apply negb_true_iff, Hb.
  - apply distinct_filter, IH.
Qed.

Lemma first_occurrences_cover col :
  forallb hashable col = true -> Forall (fun v => v <> JNull) col ->
  forall v, In v col -> exists id, In id (first_occurrences col) /\ py_eq id v = true.
Proof.
  induction col as [|x col IH]; simpl; intros Hh Hn v Hv; [contradiction|].
  apply andb_true_iff in Hh. destruct Hh as (Hx & Hh).
  inversion Hn as [|? ? Hxn Hcn]; subst.
  destruct Hv as [<-|Hv].
  - exists x. split; [left; reflexivity|]. apply py_eq_refl; assumption.
  - destruct (IH Hh Hcn v Hv) as (id & Hid & Eid).
    destruct (py_eq x id) eqn:Exid.
    + exists x. split; [left; reflexivity|]. eapply py_eq_trans; eauto.
    + exists id. split; [|exact Eid]. right. apply filter_In.
      split; [exact Hid|]. rewrite Exid. reflexivity.
Qed.

(** The id list [main] derives from the listing has no [None], no two ids
    that compare equal, only ids some record carries, and one id equal to
    the [siteID] of every record that has one. *)
Theorem site_id_list_deduplicates sites_df ids :
  site_id_list sites_df = Ok ids ->
  Forall (fun id => id <> JNull) ids /\
  ForallOrdPairs (fun a b => py_eq a b = false) ids /\
  (forall id, In id ids -> exists row, In row sites_df /\ site_siteID row = id) /\
  (forall row, In row sites_df -> site_siteID row <> JNull ->
     exists id, In id ids /\ py_eq id (site_siteID row) = true).
Proof.
  unfold site_id_list, unique. intros E.
  assert (Hna : Forall (fun v => v <> JNull) (dropna (map site_siteID sites_df))).
  { apply Forall_forall. intros v Hv. apply filter_In in Hv.
    destruct Hv as (_ & Hv). intros ->. discriminate. }
  destruct sites_df as [|r0 rows0] eqn:Edf; [discriminate|]. rewrite <- Edf in *.
  destruct (forallb hashable (dropna (map site_siteID sites_df))) eqn:Hh;
    [|discriminate].
  injection E as <-.
  split; [|split; [|split]].
  - apply Forall_forall. intros id Hid. apply first_occurrences_incl in Hid.
    rewrite Forall_forall in Hna. apply Hna, Hid.
  - apply first_occurrences_distinct.
  - intros id Hid. apply first_occurrences_incl in Hid.
    apply filter_In in Hid. destruct Hid as (Hid & _).
    apply in_map_iff in Hid. destruct Hid as (row & <- & Hrow). eauto.
  - intros row Hrow Hn. apply (first_occurrences_cover _ Hh Hna).
    apply filter_In. split; [apply in_map; exact Hrow|].
    destruct (site_siteID row); try reflexivity. contradiction.
Qed.

(** ** From the listing to the payloads *)

Section FanOut.
Context `{PyRuntime}.

(** A run of [main] that ends well has created exactly one task per id of
    its deduplicated list, in order, and holds one payload per id, each
    carrying the id it was fetched for. *)
Theorem main_dispatches_each_site_once w run w' :
  ready w ->
  main w = (Ok run, w') ->
  tasks (log w') = tasks (log w) ++ site_ids run /\
  Forall2 (fun sid payload => get payload "siteID" = Ok sid)
          (site_ids run) (payloads run) /\
  ForallOrdPairs (fun a b => py_eq a b = false) (site_ids run) /\
  Forall (fun sid => sid <> JNull) (site_ids run).
Proof.
  intros R E. unfold main in E. unfold bind at 1 in E.
  destruct (fetch_air_sites_grows w) as (d1 & G1 & T1 & _).
  destruct (fetch_air_sites w) as [[records| |] w1]; try discriminate.
  simpl in G1. pose proof (grows_ready _ _ _ G1 R) as R1.
  unfold bind at 1 in E. unfold lift at 1 in E.
  destruct (sites_to_df records) as [sites_df| |]; try discriminate.
  unfold bind at 1 in E. unfold lift at 1 in E.
  destruct (site_id_list sites_df) as [ids| |] eqn:Eids; try discriminate.
  unfold bind at 1 in E.
  destruct (spawn_workers_spec ids 8 w1 R1) as ((d2 & G2 & T2) & F & _).
  unfold fetch_all_parameters in E. change (8 <? 0) with false in E.
  destruct (spawn_workers 8 ids w1) as [os w2]. simpl in G2, F.
  cbv beta iota zeta in E.
  destruct (gather os) as [ps| |] eqn:Eg; try discriminate.
  apply gather_ok in Eg. subst os.
  unfold bind at 1 in E. unfold lift at 1 in E.
  destruct (select_bad ps) as [b| |]; try discriminate.
  unfold bind at 1 in E. unfold lift at 1 in E.
  destruct (report (firstn 10 b)) as [[]| |]; try discriminate.
  unfold bind at 1 in E. unfold lift at 1 in E.
  destruct (parameters_to_df ps) as [df| |]; try discriminate.
  unfold ret in E. injection E as <- <-. simpl.
  destruct (site_id_list_deduplicates sites_df ids Eids) as (Hn & Hd & _).
  split; [|split; [|split; assumption]].
  - destruct (grows_trans _ _ _ _ _ G1 G2) as (_ & _ & L & _).
    rewrite L, tasks_app, tasks_app, T1, T2. reflexivity.
  - clear - F. revert ps F.
    induction ids as [|sid rest IH]; intros [|p ps] F;
      inversion F; subst; constructor; auto.
Qed.

End FanOut.

(** ** Flattening: parts and ill-typed entries *)

(** The rows of a batch are the rows of its first part followed by the rows
    of the rest; an error in the first part is the error of the batch. *)
Theorem collect_rows_app front back :
  collect_rows (front ++ back) =
    (let? rows := collect_rows front in
     let? more := collect_rows back in
     Ok (rows ++ more)).
Proof.
  unfold collect_rows. induction front as [|p front IH]; simpl.
  - destruct (for_each payload_rows back); reflexivity.
  - destruct (payload_rows p) as [rs| |]; simpl; try reflexivity.
    rewrite IH.
    destruct (for_each payload_rows front) as [rows| |]; simpl; try reflexivity.
    destruct (for_each payload_rows back) as [more| |]; simpl; try reflexivity.
    rewrite app_assoc. reflexivity.
Qed.

(** A [parameters] entry that is truthy and not a list stops the
    flattening: a number or [True] cannot be iterated ([TypeError]), and the
    characters of a string or the keys of a dict have no [get]
    ([AttributeError]). *)
Theorem parameters_that_are_no_list_raise `{PyRuntime} d v rest :
  dict_get d "parameters" = Some v ->
  truthy v = true ->
  is_list v = false ->
  parameters_to_df (JObj d :: rest) =
    Raise (if is_number v then TypeError else AttributeError).
Proof.
  intros Hp Ht Hl.
  assert (E : collect_rows (JObj d :: rest) =
              Raise (if is_number v then TypeError else AttributeError)).
  { unfold collect_rows. simpl.
    unfold payload_rows. simpl. rewrite Hp. simpl. unfold py_or. rewrite Ht.
    destruct v as [|b|q|s|l|kv]; simpl in *; try discriminate; try reflexivity.
    - destruct s as [|c s]; [discriminate|]. reflexivity.
    - destruct kv as [|[k x] kv]; [discriminate|]. reflexivity. }
  unfold parameters_to_df. rewrite E. reflexivity.
Qed.

(** ** What the listing script prints *)

Section Printing.
Context `{PyRuntime}.

Lemma print_records_printable recs :
  forallb printable recs = true ->
  SiteListScript.print_records recs = (map site_line_of recs, None).
Proof.
  induction recs as [|rec recs IH]; simpl; intros Hall; [reflexivity|].
  apply andb_true_iff in Hall. destruct Hall as (Hrec & Hall).
  rewrite (IH Hall).
  destruct rec as [| | | | |d]; try discriminate.
  unfold SiteListScript.site_line, site_line_of. simpl in *.
  destruct (dict_get d "geometry") as [[| | | | |g]|]; try discriminate;
    reflexivity.
Qed.

Lemma describe_never_http data :
  forall code, snd (SiteListScript.describe data) <> Some (HTTPStatusError code).
Proof.
  intros code. unfold SiteListScript.describe.
  destruct data as [| | | | |d]; simpl; try discriminate.
  destruct (match dict_get d "records" with Some v => v | None => JArr [] end)
    as [| | |s|l|kv]; simpl; try discriminate.
  - generalize (chars s). intros recs.
    assert (Hn : snd (SiteListScript.print_records recs)
                 <> Some (HTTPStatusError code)).
    { induction recs as [|rec recs IH]; simpl; [discriminate|].
      destruct rec; simpl; try discriminate.
      unfold SiteListScript.site_line. simpl.
      destruct (match dict_get fields "geometry" with
                | Some v => v | None => JObj [] end); simpl; try discriminate.
      destruct (SiteListScript.print_records recs). exact IH. }
    destruct (SiteListScript.print_records recs). exact Hn.
  - assert (Hn : snd (SiteListScript.print_records l)
                 <> Some (HTTPStatusError code)).
    { induction l as [|rec recs IH]; simpl; [discriminate|].
      destruct rec; simpl; try discriminate.
      unfold SiteListScript.site_line. simpl.
      destruct (match dict_get fields "geometry" with
                | Some v => v | None => JObj [] end); simpl; try discriminate.
      destruct (SiteListScript.print_records recs). exact IH. }
    destruct (SiteListScript.print_records l). exact Hn.
  - generalize (map (fun kv0 : string * json => JStr (fst kv0)) kv). intros recs.
    assert (Hn : snd (SiteListScript.print_records recs)
                 <> Some (HTTPStatusError code)).
    { induction recs as [|rec recs IH]; simpl; [discriminate|].
      destruct rec; simpl; try discriminate.
      unfold SiteListScript.site_line. simpl.
      destruct (match dict_get fields "geometry" with
                | Some v => v | None => JObj [] end); simpl; try discriminate.
      destruct (SiteListScript.print_records recs). exact IH. }
    destruct (SiteListScript.print_records recs). exact Hn.
Qed.

(** When the listing's status is not 200, the script prints one line, the
    [Error:] line of the [AttributeError] that [None.get] raised: no total,
    no HTTP status, and no second request. *)
Theorem listing_script_reports_attribute_error w :
  let request :=
    {| url := (SiteListScript.BASE ++ "/sites")%string;
       req_headers := [("X-API-Key", API_KEY)];
       params := [("environmentalSegment", "air")] |} in
  status_code (net w (sent w) request) <> 200 ->
  exists w',
    SiteListScript.main w = (Ok [SiteListScript.ErrorLine AttributeError], w') /\
    sent w' = S (sent w).
Proof.
  intros request S.
  unfold SiteListScript.main, SiteListScript.fetch_sites, bind, client_get.
  fold request. cbn beta iota zeta.
  destruct (Z.eqb_spec (status_code (net w (sent w) request)) 200) as [?|_];
    [contradiction|].
  eexists. split; reflexivity.
Qed.

(** The script never lets an exception out and never prints an
    [HTTP error:] line: nothing in its [try] raises [HTTPStatusError], since
    [fetch_sites] does not call [raise_for_status]. *)
Theorem listing_script_never_prints_http_error w :
  exists lines w',
    SiteListScript.main w = (Ok lines, w') /\
    forall code, ~ In (SiteListScript.HTTPErrorLine code) lines.
Proof.
  unfold SiteListScript.main, SiteListScript.fetch_sites, bind, client_get.
  cbn beta iota zeta.
  set (resp := net w (sent w) _).
  destruct (status_code resp =? 200).
  - unfold lift, resp_json. destruct (body resp) as [data|].
    + pose proof (describe_never_http data) as Hd.
      assert (Hl : forall code,
                 ~ In (SiteListScript.HTTPErrorLine code)
                      (fst (SiteListScript.describe data))).
      { intros code. unfold SiteListScript.describe.
        destruct (get data "totalRecords"); simpl; try tauto.
        destruct (let? records := get_default data "records" (JArr []) in
                  py_iter records) as [recs| |]; simpl;
          try (intros [Hc|[]]; discriminate).
        assert (Hr : ~ In (SiteListScript.HTTPErrorLine code)
                          (fst (SiteListScript.print_records recs))).
        { induction recs as [|rec recs IH]; simpl; [tauto|].
          destruct (SiteListScript.site_line rec) as [l| |] eqn:El; simpl;
            try tauto.
          destruct (SiteListScript.print_records recs) as [ls stop]. simpl in *.
          intros [Hc|Hc]; [|exact (IH Hc)]. subst l.
          unfold SiteListScript.site_line in El.
          repeat match type of El with
                 | obind ?c _ = _ => destruct c; simpl in El; try discriminate
                 end. }
        destruct (SiteListScript.print_records recs) as [ls stop]. simpl in *.
        intros [Hc|Hc]; [discriminate|exact (Hr Hc)]. }
      destruct (SiteListScript.describe data) as [ls stop]. simpl in *.
      eexists _, _. split; [reflexivity|]. intros code Hin.
      apply in_app_or in Hin. destruct Hin as [Hin|Hin]; [exact (Hl code Hin)|].
      specialize (Hd code).
      destruct stop as [[]|]; simpl in Hin;
        try (destruct Hin as [Hc|[]]; discriminate); try contradiction.
      destruct Hin as [Hc|[]]. injection Hc as ->. apply Hd. reflexivity.
    + eexists _, _. split; [reflexivity|]. simpl.
      intros code [Hc|[]]. discriminate.
  - eexists _, _. split; [reflexivity|]. simpl.
    intros code [Hc|[]]. discriminate.
Qed.

(** On a 200 whose body is a dict with a list of printable records, the
    script prints the total line, then one line per record in order, and
    nothing else. *)
Theorem listing_script_prints_every_record w d recs :
  let request :=
    {| url := (SiteListScript.BASE ++ "/sites")%string;
       req_headers := [("X-API-Key", API_KEY)];
       params := [("environmentalSegment", "air")] |} in
  status_code (net w (sent w) request) = 200 ->
  body (net w (sent w) request) = Some (JObj d) ->
  dict_get d "records" = Some (JArr recs) ->
  forallb printable recs = true ->
  exists w',
    SiteListScript.main w =
      (Ok (SiteListScript.TotalLine (field (JObj d) "totalRecords")
           :: map site_line_of recs), w').
Proof.
  intros request S B Hrecs Hall.
  unfold SiteListScript.main, SiteListScript.fetch_sites, bind, client_get.
  fold request. cbn beta iota zeta. rewrite S. simpl.
  unfold lift, resp_json. rewrite B.
  unfold SiteListScript.describe. simpl. rewrite Hrecs. simpl.
  rewrite (print_records_printable recs Hall). simpl.
  rewrite app_nil_r. eexists. reflexivity.
Qed.

End Printing.

(** ** Where a call does not return *)

Section Failures.
Context `{PyRuntime}.

(** A 429 whose Retry-After reads as infinity parks the call for good: the
    timer of [asyncio.sleep(inf)] never fires. *)
Theorem fetch_hangs_on_infinite_retry_after sid w :
  ready w ->
  status_code (upcoming w sid 0) = 429 ->
  backoff_delay 0 (upcoming w sid 0) = PosInf ->
  fst (fetch_site_parameters sid w) = Hang.
Proof.
  intros R S429 Inf.
  destruct (attempt_unfold sid 0 [1; 2; 3] w R) as (w1 & d1 & _ & _ & _ & E).
  unfold fetch_site_parameters. change (range 4) with [0; 1; 2; 3].
  rewrite E. cbn zeta. rewrite S429, Z.eqb_refl, Inf. reflexivity.
Qed.

(** A server that answers every request with one and the same status, none
    of 429, 404 and 2xx (a refused key, an outage), fails the whole pool
    call with that status, after every task has been created all the
    same. *)
Theorem fetch_all_parameters_raises_with_worker sid rest concurrency code w :
  0 < concurrency ->
  ready w ->
  hard_failure code = true ->
  (forall n r, status_code (net w n r) = code) ->
  exists w',
    fetch_all_parameters (sid :: rest) concurrency w =
      (Raise (HTTPStatusError code), w') /\
    tasks (log w') = tasks (log w) ++ sid :: rest.
Proof.
  intros Hc R Hard Hall.
  assert (Ec : status_code (upcoming w sid 0) = code) by apply Hall.
  rewrite <- Ec in Hard |- *. clear Ec Hall.
  destruct (spawn_workers_spec (sid :: rest) concurrency w R) as ((d & G & T) & _).
  unfold fetch_all_parameters.
  destruct (Z.ltb_spec concurrency 0) as [?|_]; [lia|].
  cbn [spawn_workers] in *.
  destruct (Z.leb_spec concurrency 0) as [?|_]; [lia|].
  set (w1 := with_log w (EvTask sid)) in *.
  assert (R1 : ready w1) by exact R.
  unfold hard_failure in Hard.
  apply andb_true_iff in Hard. destruct Hard as (Hard & H2xx).
  apply andb_true_iff in Hard. destruct Hard as (Hn429 & Hn404).
  assert (U : upcoming w1 sid 0 = upcoming w sid 0) by reflexivity.
  destruct (attempt_settles sid 0 [1; 2; 3] w1 R1) as (w2 & d2 & E2 & _).
  { rewrite U. intros S429. rewrite S429 in Hn429. discriminate. }
  unfold fetch_site_parameters in *. change (range 4) with [0; 1; 2; 3] in *.
  rewrite E2 in *. rewrite U in *.
  assert (Es : settle sid (upcoming w sid 0) =
               Raise (HTTPStatusError (status_code (upcoming w sid 0)))).
  { unfold settle, raise_for_status. unfold success_status in H2xx.
    destruct (status_code (upcoming w sid 0) =? 404); [discriminate|].
    destruct ((200 <=? status_code (upcoming w sid 0))
              && (status_code (upcoming w sid 0) <=? 299)); [discriminate|].
    reflexivity. }
  rewrite Es in *.
  destruct (sleep InStagger (Fin (1 # 100)) w2) as [o3 w3].
  destruct (spawn_workers concurrency rest w3) as [os w4]. simpl in *.
  exists w4. split; [reflexivity|].
  destruct G as (_ & _ & L & _). rewrite L, tasks_app, T. reflexivity.
Qed.

Lemma spawn_workers_no_slot site_ids : forall w,
  fst (spawn_workers 0 site_ids w) = map (fun _ => Hang) site_ids.
Proof.
  induction site_ids as [|sid rest IH]; intros w; [reflexivity|].
  cbn [spawn_workers]. change (0 <=? 0) with true. cbv beta iota zeta.
  destruct (sleep InStagger (Fin (1 # 100)) (with_log w (EvTask sid))) as [o3 w3].
  specialize (IH w3).
  destruct (spawn_workers 0 rest w3) as [os w4]. simpl in *.
  rewrite IH. reflexivity.
Qed.

(** With a semaphore of zero slots no worker ever gets past
    [async with sem], and the pool call never returns. *)
Theorem fetch_all_parameters_stuck_without_slots sid rest w :
  fst (fetch_all_parameters (sid :: rest) 0 w) = Hang.
Proof.
  unfold fetch_all_parameters. simpl (0 <? 0). cbv iota.
  pose proof (spawn_workers_no_slot (sid :: rest) w) as E.
  destruct (spawn_workers 0 (sid :: rest) w) as [os w']. simpl in *.
  subst os. unfold gather. simpl.
  assert (F : first_raise (map (fun _ : json => @Hang json) rest) = None)
    by (induction rest; simpl; auto).
  rewrite F. reflexivity.
Qed.

Lemma fetch_air_sites_returns w data :
  ready w ->
  success_status (status_code (net w (sent w) sites_request)) = true ->
  body (net w (sent w) sites_request) = Some data ->
  fst (fetch_air_sites w) = get_default data "records" (JArr []).
Proof.
  intros R S2xx B. unfold fetch_air_sites. unfold bind at 1.
  destruct (acquire_grows w) as (d0 & (N & _ & _ & Sn) & L0).
  destruct (limiter_events_silent _ L0) as (Gd & _).
  pose proof (acquire_returns w R) as A.
  destruct (acquire w) as [o w0]. simpl in *. subst o.
  rewrite Gd in Sn. simpl in Sn. rewrite Nat.add_0_r in Sn.
  unfold bind at 1. unfold client_get at 1. cbn beta iota zeta.
  rewrite N, Sn. unfold bind, lift, raise_for_status, resp_json.
  unfold success_status in S2xx. rewrite S2xx, B. simpl.
  destruct (get_default data "records" (JArr [])); reflexivity.
Qed.

(** A listing without records stops the run: the frame built from no row
    has no [siteID] column to select. *)
Theorem main_fails_on_empty_listing w d :
  ready w ->
  success_status (status_code (net w (sent w) sites_request)) = true ->
  body (net w (sent w) sites_request) = Some (JObj d) ->
  dict_get d "records" = None \/ dict_get d "records" = Some (JArr []) ->
  fst (main w) = Raise (KeyError "siteID").
Proof.
  intros R S2xx B Hrec.
  pose proof (fetch_air_sites_returns w (JObj d) R S2xx B) as E.
  assert (Er : get_default (JObj d) "records" (JArr []) = Ok (JArr [])).
  { simpl. destruct Hrec as [-> | ->]; reflexivity. }
  rewrite Er in E. unfold main. unfold bind at 1.
  destruct (fetch_air_sites w) as [o w1]. simpl in E. subst o.
  reflexivity.
Qed.

End Failures.

(** ** Runs *)

Section Runs.
#[local] Existing Instance sample_runtime.

Lemma ready_boot k server elapsed : 0 < k -> ready (boot k server elapsed).
Proof. intros Hk. exact Hk. Qed.

(** World: 429 with Retry-After 3, a plain 429, then a payload. *)
Lemma fetch_site_parameters_retries_run :
  exists w',
    fetch_site_parameters (JStr "A") world_retry =
      (Ok (JObj [("parameters", JArr []); ("siteID", JStr "A")]), w') /\
    sent w' = 3%nat.
Proof.
  destruct (fetch_site_parameters_retries (JStr "A") world_retry) as [Hs _].
  { apply ready_boot. lia. }
  destruct (Hs 2%nat [("parameters", JArr [])]) as (w' & E & Sn & _).
  - lia.
  - intros k Hk. destruct k as [|[|k]]; [split; reflexivity ..|lia].
  - reflexivity.
  - reflexivity.
  - exists w'. split; [exact E|exact Sn].
Defined.

(** One 429, then a 200 with a payload, and yet no payload comes back: the
    429 asked to wait for ["inf"] seconds, and the second request is never
    sent. *)
Lemma fetch_site_parameters_parked_by_retry_after :
  status_code (upcoming world_parked (JStr "A") 0) = 429 /\
  status_code (upcoming world_parked (JStr "A") 1) = 200 /\
  body (upcoming world_parked (JStr "A") 1) =
    Some (JObj [("parameters", JArr [])]) /\
  fst (fetch_site_parameters (JStr "A") world_parked) = Hang /\
  returned (fst (fetch_site_parameters (JStr "A") world_parked)) = false /\
  sent (snd (fetch_site_parameters (JStr "A") world_parked)) = 1%nat.
Proof. vm_compute. auto 10. Qed.


Lemma not_found_on_first_attempt_run :
  exists w',
    fetch_site_parameters (JStr "B") (world_of (reply 404 [] None)) =
      (Ok (not_found_payload (JStr "B")), w') /\
    sent w' = 1%nat.
Proof.
  destruct (not_found_on_first_attempt (JStr "B") (world_of (reply 404 [] None)))
    as ((w' & delta & E & (_ & _ & _ & Sn) & Gd & _) & _).
  { apply ready_boot. lia. }
  { reflexivity. }
  exists w'. split; [exact E|]. rewrite Sn, Gd. reflexivity.
Defined.

(** The 404 of an unknown site and the 200 of a site without parameters
    come back as the same dict. *)
Lemma not_found_same_as_empty_success :
  status_code (upcoming (world_of (reply 404 [] None)) (JStr "B") 0) = 404 /\
  status_code
    (upcoming (world_of (reply 200 [] (Some (JObj [("siteID", JStr "B");
                                                    ("parameters", JArr [])]))))
              (JStr "B") 0) = 200 /\
  fst (fetch_site_parameters (JStr "B") (world_of (reply 404 [] None))) =
  fst (fetch_site_parameters (JStr "B")
         (world_of (reply 200 [] (Some (JObj [("siteID", JStr "B");
                                               ("parameters", JArr [])]))))).
Proof. vm_compute. auto. Qed.

Lemma fetch_site_parameters_outcomes_run :
  (exists payload w',
     fetch_site_parameters (JStr "A") world_retry = (Ok payload, w') /\
     get payload "siteID" = Ok (JStr "A")).
Proof.
  destruct (fetch_site_parameters_outcomes (JStr "A") world_retry) as [Hret _].
  { apply ready_boot. lia. }
  { intros k Hk. destruct k as [|[|[|[|k]]]]; [reflexivity ..|lia]. }
  apply Hret.
  intros k Hk. destruct k as [|[|[|[|k]]]]; [reflexivity ..|lia].
Defined.

(** A 500 is not captured in a result: the call raises. *)
Lemma fetch_site_parameters_raises_on_500 :
  fst (fetch_site_parameters (JStr "A") (world_of (reply 500 [] None))) =
    Raise (HTTPStatusError 500) /\
  returned (fst (fetch_site_parameters (JStr "A")
                   (world_of (reply 500 [] None)))) = false.
Proof. vm_compute. auto. Qed.

Lemma fetch_all_parameters_run :
  exists results w',
    fetch_all_parameters [JStr "A"; JStr "B"] 8 (world_of (reply 404 [] None)) =
      (Ok results, w') /\
    List.length results = 2%nat /\
    exists delta,
      log w' = log (world_of (reply 404 [] None)) ++ delta /\
      tasks delta = [JStr "A"; JStr "B"] /\
      Forall2 (fun sid payload =>
                 get payload "siteID" = Ok sid /\
                 fetched (world_of (reply 404 [] None)) delta sid payload)
              [JStr "A"; JStr "B"] results.
Proof.
  destruct (fetch_all_parameters_one_result_per_id
              [JStr "A"; JStr "B"] 8 (world_of (reply 404 [] None)))
    as [Hres Hret].
  { apply ready_boot. lia. }
  destruct Hret as (results & w' & E).
  { lia. }
  { intros n r. destruct n; (split; [reflexivity|]); intros attempt; reflexivity. }
  exists results, w'. split; [exact E|].
  apply (Hres results w' E).
Defined.

Lemma main_run_ABC : exists run w', main world_ABC = (Ok run, w').
Proof.
  destruct (main world_ABC) as [[run| |] w'] eqn:E.
  - exists run, w'. reflexivity.
  - vm_compute in E. discriminate.
  - vm_compute in E. discriminate.
Defined.

Lemma main_flattens_every_payload_run :
  exists run,
    fst (main world_ABC) = Ok run /\
    flattened run = payloads run /\
    bad run = filter has_error (payloads run).
Proof.
  destruct main_run_ABC as (run & w' & E).
  destruct (main_flattens_every_payload world_ABC run w' E) as (F & B & _).
  exists run. rewrite E. auto.
Defined.

(** The payload of C, which exhausted its retries, is among those given to
    [parameters_to_df]. *)
Lemma main_flattens_exhausted_payload :
  exists run,
    fst (main world_ABC) = Ok run /\
    In (exhausted_payload (JStr "C")) (bad run) /\
    In (exhausted_payload (JStr "C")) (flattened run) /\
    flattened run <> usable (payloads run).
Proof.
  eexists. split; [vm_compute; reflexivity|].
  split; [vm_compute; auto|]. split; [vm_compute; auto|].
  vm_compute. discriminate.
Qed.

Lemma listing_failure_run :
  fst (main (world_of (reply 503 [] None))) = Raise (HTTPStatusError 503) /\
  tasks (log (snd (main (world_of (reply 503 [] None))))) = [].
Proof.
  destruct (listing_failure_starts_no_task
              (world_of (reply 503 [] None)) (HTTPStatusError 503))
    as (E & _ & delta & L & T & _).
  { reflexivity. }
  split; [exact E|]. rewrite L, tasks_app, T. reflexivity.
Defined.


Lemma fetch_sites_none_on_403 :
  exists w',
    SiteListScript.fetch_sites "air" (world_of (reply 403 [] None)) =
      (Ok JNull, w') /\
    sent w' = 1%nat.
Proof.
  destruct (fetch_sites_none_unless_200 "air" (world_of (reply 403 [] None)))
    as (w' & E & _ & Sn).
  { discriminate. }
  exists w'. split; [exact E|exact Sn].
Defined.

Lemma world_ticking_sound : window_sound world_ticking /\ monotone world_ticking.
Proof.
  split; [split|]; repeat constructor; discriminate.
Qed.

Lemma acquire_keeps_window_in_order_run :
  window_sound (snd (acquire world_ticking)) /\
  Forall2 Qeq (_win (rate_limiter (snd (acquire world_ticking))))
              [1 # 2; 3 # 2]%Q.
Proof.
  destruct (acquire_keeps_window_in_order world_ticking) as (_ & W & _).
  { reflexivity. }
  { apply world_ticking_sound. }
  { apply world_ticking_sound. }
  split; [exact W|]. vm_compute. repeat constructor.
Defined.

Lemma acquire_needs_positive_cap_run :
  fst (acquire (boot 0 (answers [] too_many) [])) = Raise IndexError.
Proof.
  apply acquire_needs_positive_cap; [simpl; lia|reflexivity].
Defined.

Lemma fetch_hangs_on_infinite_retry_after_run :
  fst (fetch_site_parameters (JStr "A")
         (world_of (reply 429 [("retry-after", "inf")] None))) = Hang.
Proof.
  apply fetch_hangs_on_infinite_retry_after; reflexivity.
Defined.

Lemma fetch_all_parameters_raises_run :
  exists w',
    fetch_all_parameters [JStr "A"; JStr "B"] 8 (world_of (reply 403 [] None)) =
      (Raise (HTTPStatusError 403), w') /\
    tasks (log w') = [JStr "A"; JStr "B"].
Proof.
  destruct (fetch_all_parameters_raises_with_worker
              (JStr "A") [JStr "B"] 8 403 (world_of (reply 403 [] None)))
    as (w' & E & T).
  { lia. }
  { reflexivity. }
  { reflexivity. }
  { intros n r. destruct n; reflexivity. }
  exists w'. split; [exact E|exact T].
Defined.

Lemma main_fails_on_empty_listing_run :
  fst (main (world_of (reply 200 [] (Some (JObj [("totalRecords", JNum 0);
                                                  ("records", JArr [])]))))) =
    Raise (KeyError "siteID").
Proof.
  eapply main_fails_on_empty_listing.
  - reflexivity.
  - reflexivity.
  - reflexivity.
  - right. reflexivity.
Defined.

Lemma acquire_evicts_only_stale_entries_run :
  exists dropped kept,
    _win (rate_limiter world_ticking) = dropped ++ kept /\
    List.length dropped = 1%nat /\ List.length kept = 1%nat.
Proof.
  destruct (acquire_evicts_only_stale_entries world_ticking)
    as (dropped & kept & E & E' & _).
  { reflexivity. }
  { apply world_ticking_sound. }
  exists dropped, kept. split; [exact E|].
  assert (Hk : List.length (kept ++ [clock (snd (acquire world_ticking))]) = 2%nat)
    by (rewrite <- E'; reflexivity).
  assert (Hd : List.length (dropped ++ kept) = 2%nat)
    by (rewrite <- E; reflexivity).
  rewrite length_app in Hk, Hd. simpl in Hk. lia.
Defined.

Lemma acquire_sleeps_at_most_one_second_run :
  exists delta,
    log (snd (acquire world_waiting)) = delta /\
    List.length (limiter_sleeps delta) = 1%nat.
Proof.
  destruct (acquire_sleeps_at_most_one_second world_waiting) as (delta & L & _).
  { reflexivity. }
  { split; repeat constructor; discriminate. }
  { repeat constructor; discriminate. }
  exists delta. split; [exact L|].
  simpl in L. rewrite <- L. reflexivity.
Defined.


Lemma success_payload_keeps_server_entries_run :
  exists payload,
    fst (fetch_site_parameters (JStr "Z")
           (world_of (reply 201 [] (Some payload_A)))) = Ok payload /\
    get payload "siteID" = Ok (JStr "Z") /\
    get payload "parameters" = get payload_A "parameters".
Proof.
  destruct (success_payload_keeps_server_entries (JStr "Z")
              (world_of (reply 201 [] (Some payload_A)))
              [("siteID", JStr "A");
               ("parameters", field payload_A "parameters")])
    as (payload & w' & E & Hid & Hkeep & _).
  { reflexivity. }
  { reflexivity. }
  { reflexivity. }
  exists payload. rewrite E. split; [reflexivity|]. split; [exact Hid|].
  apply Hkeep. discriminate.
Defined.

Lemma success_without_object_raises_run :
  fst (fetch_site_parameters (JStr "A") (world_of (reply 200 [] None))) =
    Raise JSONDecodeError /\
  fst (fetch_site_parameters (JStr "A")
         (world_of (reply 200 [] (Some (JArr []))))) = Raise TypeError.
Proof.
  split.
  - apply (success_without_object_raises (JStr "A") (world_of (reply 200 [] None)));
      reflexivity.
  - apply (success_without_object_raises (JStr "A")
             (world_of (reply 200 [] (Some (JArr [])))))
      with (v := JArr []); reflexivity.
Defined.

Lemma fetch_air_sites_raises_without_retry_run :
  exists w',
    fetch_air_sites (world_of too_many) = (Raise (HTTPStatusError 429), w') /\
    sent w' = 1%nat.
Proof.
  destruct (fetch_air_sites_raises_without_retry (world_of too_many))
    as (w' & delta & E & _ & _ & _ & Sn).
  { reflexivity. }
  { reflexivity. }
  exists w'. split; [exact E|exact Sn].
Defined.

(** The second record has one coordinate, an integer no double holds: it
    lands in a column of numbers, and its row has no [lat]. *)
Lemma sites_to_df_one_row_per_record_run :
  exists df,
    sites_to_df
      (JArr [site_record "A";
             JObj [("siteID", JStr "B");
                   ("geometry",
                    JObj [("coordinates", JArr [JNum (inject_Z (2 ^ 53 + 1))])])]])
      = Ok df /\
    map site_siteID df = [JStr "A"; JStr "B"] /\
    map site_siteName df = [JStr "A"; JNull] /\
    map site_lon df = [JNum (289 # 2); JNum (inject_Z (2 ^ 53))] /\
    map site_lat df = [JNum (-151 # 4); JNull].
Proof.
  destruct (sites_to_df_one_row_per_record
              [site_record "A";
               JObj [("siteID", JStr "B");
                     ("geometry",
                      JObj [("coordinates",
                             JArr [JNum (inject_Z (2 ^ 53 + 1))])])]])
    as (df & E & _).
  { reflexivity. }
  exists df. split; [exact E|].
  vm_compute in E. injection E as <-. vm_compute. auto.
Defined.

Lemma sites_to_df_rejects_null_geometry_run :
  sites_to_df
    (JArr [site_record "A"; JObj [("siteID", JStr "B"); ("geometry", JNull)]]) =
    Raise AttributeError.
Proof.
  apply (sites_to_df_rejects_geometry_that_is_no_dict
           [site_record "A"] [("siteID", JStr "B"); ("geometry", JNull)] JNull []);
    reflexivity.
Defined.

Lemma site_id_list_deduplicates_run :
  exists ids,
    site_id_list
      (map site_row_of [site_record "A"; JObj [("siteName", JStr "nameless")];
                        site_record "B"; site_record "A"]) = Ok ids /\
    ForallOrdPairs (fun a b => py_eq a b = false) ids /\
    List.length ids = 2%nat.
Proof.
  exists [JStr "A"; JStr "B"]. split; [reflexivity|]. split; [|reflexivity].
  apply (site_id_list_deduplicates
           (map site_row_of [site_record "A"; JObj [("siteName", JStr "nameless")];
                             site_record "B"; site_record "A"])
           [JStr "A"; JStr "B"]).
  reflexivity.
Defined.

Lemma main_dispatches_each_site_once_run :
  exists run w',
    main world_repeats = (Ok run, w') /\
    tasks (log w') = site_ids run /\
    List.length (site_ids run) = 2%nat.
Proof.
  assert (E : exists run w', main world_repeats = (Ok run, w')).
  { destruct (main world_repeats) as [[run| |] w'] eqn:E.
    - exists run, w'. reflexivity.
    - vm_compute in E. discriminate.
    - vm_compute in E. discriminate. }
  destruct E as (run & w' & E). exists run, w'. split; [exact E|].
  destruct (main_dispatches_each_site_once world_repeats run w') as (T & _).
  { reflexivity. }
  { exact E. }
  split; [exact T|].
  vm_compute in E. injection E as <- _. reflexivity.
Defined.

Lemma parameters_that_are_no_list_raise_run :
  parameters_to_df [JObj [("siteID", JStr "A"); ("parameters", JStr "none")]] =
    Raise AttributeError /\
  parameters_to_df [JObj [("siteID", JStr "A"); ("parameters", JNum 3)]] =
    Raise TypeError.
Proof.
  split.
  - apply (parameters_that_are_no_list_raise
             [("siteID", JStr "A"); ("parameters", JStr "none")] (JStr "none") []);
      reflexivity.
  - apply (parameters_that_are_no_list_raise
             [("siteID", JStr "A"); ("parameters", JNum 3)] (JNum 3) []);
      reflexivity.
Defined.

Lemma listing_script_reports_attribute_error_run :
  exists w',
    SiteListScript.main (world_of (reply 500 [] None)) =
      (Ok [SiteListScript.ErrorLine AttributeError], w') /\
    sent w' = 1%nat.
Proof.
  apply (listing_script_reports_attribute_error (world_of (reply 500 [] None))).
  discriminate.
Defined.

Lemma listing_script_prints_every_record_run :
  exists lines w',
    SiteListScript.main (world_of listing_ABC) = (Ok lines, w') /\
    List.length lines = 4%nat.
Proof.
  destruct (listing_script_prints_every_record (world_of listing_ABC)
              [("totalRecords", JNum 3);
               ("records", JArr [site_record "A"; site_record "B";
                                 site_record "C"])]
              [site_record "A"; site_record "B"; site_record "C"])
    as (w' & E).
  { reflexivity. }
  { reflexivity. }
  { reflexivity. }
  { reflexivity. }
  eexists _, w'. split; [exact E|reflexivity].
Defined.

End Runs.
